(** * VibeCart backend: the shopping cart aggregate and its service

    A shallow embedding of [models/Cart.js] (the cart schema, its
    [pre('save')] hook and its four methods) and of [routes/cart.js] (the
    five request handlers), followed by the properties of the cart that
    the specification states.

    Modelling conventions.
    - A JavaScript [Number] that holds a quantity or a stock level is an
      integer ([Z]); a price is a rational ([Q]).  Fractional quantities
      and the rounding of binary floating point are outside the model.
    - An ObjectId is identified with its canonical string rendering, so
      [a.toString() === b.toString()] is string equality.  The empty
      string stands for the identifier that a request left out.
    - The [carts] collection has a unique index on [user]: it is a finite
      map from the user to the stored document.  The [products]
      collection is a finite map from the identifier to the product.
    - [await doc.save()] first validates the document against the schema
      (Mongoose registers validation as the first [pre('save')] hook),
      then runs the schema's own [pre('save')] hook and writes the
      document.  A failed validation rejects: nothing is written.  A
      rejected promise is a thrown error, [inl]; the collection is
      passed explicitly and returned with the result.
    - The [protect] middleware has put the authenticated user on the
      request before a handler runs. *)

From stdpp Require Import gmap strings list fin_maps pretty.
From Stdlib Require Import QArith.

Local Open Scope Z_scope.

(** ** Data model *)

Abbreviation ProductId := string.
Abbreviation UserId := string.

(** [cartItemSchema] *)
Record CartItem := {
  product : ProductId;
  quantity : Z;
  price : Q
}.

(** [cartSchema] *)
Record Cart := {
  user : UserId;
  items : list CartItem;
  totalItems : Z;
  totalPrice : Q
}.

(** The fields of [productSchema] that the cart reads. *)
Record Product := {
  product_price : Q;
  product_stock : Z
}.

Abbreviation Store := (gmap UserId Cart).
Abbreviation Catalog := (gmap ProductId Product).

(** One failed schema validator: the index of the item in [items], the
    field, and the validator's message. *)
Record ValidatorError := {
  item_index : nat;
  field : string;
  reason : string
}.

Inductive Error :=
  | ValidationError (errors : list ValidatorError)
  | PlainError (message : string).

Definition Result (A : Type) : Type := Error + A.

(** ** The schema validators and the save hook *)

Definition validateItem (i : nat) (item : CartItem) : list ValidatorError :=
  (if quantity item <? 1
   then [{| item_index := i; field := "quantity";
            reason := "Quantity must be at least 1" |}] else [])
  ++ (if 100 <? quantity item
      then [{| item_index := i; field := "quantity";
               reason := "Quantity cannot exceed 100" |}] else [])
  ++ (if Qle_bool 0 (price item) then []
      else [{| item_index := i; field := "price";
               reason := "Price cannot be negative" |}]).

Definition validate (c : Cart) : list ValidatorError :=
  mjoin (imap validateItem (items c)).

(** [this.items.reduce((sum, item) => sum + item.quantity, 0)] *)
Definition sumQuantity (l : list CartItem) : Z :=
  fold_left (fun sum item => sum + quantity item) l 0.

(** [this.items.reduce((sum, item) => sum + (item.price * item.quantity), 0)] *)
Definition sumPrice (l : list CartItem) : Q :=
  fold_left (fun sum item => (sum + price item * inject_Z (quantity item))%Q) l 0%Q.

(** [cartSchema.pre('save')] *)
Definition preSave (this : Cart) : Cart :=
  {| user := user this;
     items := items this;
     totalItems := sumQuantity (items this);
     totalPrice := sumPrice (items this) |}.

(** [this.save()] *)
Definition save (this : Cart) (db : Store) : Result Cart * Store :=
  match validate this with
  | [] => let saved := preSave this in (inr saved, <[user saved := saved]> db)
  | errs => (inl (ValidationError errs), db)
  end.

(** ** The methods of the cart *)

(** [item => item.product.toString() === productId.toString()] *)
Definition sameProduct (productId : ProductId) (item : CartItem) : bool :=
  String.eqb (product item) productId.

(** [item => item.product.toString() !== productId.toString()] *)
Definition otherProduct (productId : ProductId) (item : CartItem) : bool :=
  negb (String.eqb (product item) productId).

Definition setItems (l : list CartItem) (this : Cart) : Cart :=
  {| user := user this; items := l;
     totalItems := totalItems this; totalPrice := totalPrice this |}.

Definition setQuantity (q : Z) (item : CartItem) : CartItem :=
  {| product := product item; quantity := q; price := price item |}.

(** An assignment to a field of the element that [Array.prototype.find]
    returned: the first element that satisfies [p] is changed in place. *)
Fixpoint modifyFound (p : CartItem -> bool) (f : CartItem -> CartItem)
    (l : list CartItem) : list CartItem :=
  match l with
  | [] => []
  | item :: rest =>
      if p item then f item :: rest else item :: modifyFound p f rest
  end.

(** [cartSchema.methods.addItem] *)
Definition addItem (productId : ProductId) (qty : Z) (unitPrice : Q)
    (this : Cart) (db : Store) : Result Cart * Store :=
  match List.find (sameProduct productId) (items this) with
  | Some _ =>
      let bump existingItem :=
        let q := quantity existingItem + qty in
        setQuantity (if 100 <? q then 100 else q) existingItem in
      save (setItems (modifyFound (sameProduct productId) bump (items this)) this) db
  | None =>
      save (setItems (items this ++
              [{| product := productId; quantity := qty; price := unitPrice |}])
              this) db
  end.

(** [cartSchema.methods.updateItemQuantity] *)
Definition updateItemQuantity (productId : ProductId) (qty : Z)
    (this : Cart) (db : Store) : Result Cart * Store :=
  match List.find (sameProduct productId) (items this) with
  | Some _ =>
      if qty <=? 0
      then save (setItems (List.filter (otherProduct productId) (items this)) this) db
      else save (setItems
                   (modifyFound (sameProduct productId)
                      (setQuantity (Z.min qty 100)) (items this))
                   this) db
  | None => (inl (PlainError "Item not found in cart"), db)
  end.

(** [cartSchema.methods.removeItem] *)
Definition removeItem (productId : ProductId)
    (this : Cart) (db : Store) : Result Cart * Store :=
  save (setItems (List.filter (otherProduct productId) (items this)) this) db.

(** [cartSchema.methods.clearCart] *)
Definition clearCart (this : Cart) (db : Store) : Result Cart * Store :=
  save (setItems [] this) db.

(** ** The request handlers of [routes/cart.js] *)

(** [new Cart({ user, items: [] })]: the totals take their schema defaults. *)
Definition newCart (u : UserId) : Cart :=
  {| user := u; items := []; totalItems := 0; totalPrice := 0%Q |}.

(** The [data] of a response: a cart document as stored, or a cart whose
    items were expanded by [populate('items.product')] ([None] where the
    referenced product no longer exists). *)
Inductive CartView :=
  | Plain (c : Cart)
  | Expanded (c : Cart) (products : list (option Product)).

Definition populate (cat : Catalog) (c : Cart) : CartView :=
  Expanded c (map (fun item => cat !! product item) (items c)).

Record Response := {
  status : Z;
  success : bool;
  message : option string;
  data : option CartView;
  error : option Error
}.

Definition failure (code : Z) (msg : string) : Response :=
  {| status := code; success := false; message := Some msg;
     data := None; error := None |}.

(** The [catch] block of a handler. *)
Definition caught (msg : string) (e : Error) : Response :=
  {| status := 500; success := false; message := Some msg;
     data := None; error := Some e |}.

Definition ok (msg : option string) (d : option CartView) : Response :=
  {| status := 200; success := true; message := msg; data := d; error := None |}.

(** [Cart.findById(cart._id)]: the document that [cart.save()] wrote. *)
Definition findById (c : Cart) (db : Store) : option Cart := db !! user c.

Definition outOfStock (p : Product) : string :=
  "Only " +:+ pretty (product_stock p) +:+ " items available in stock".

(** [router.get('/')] *)
Definition getCart (reqUser : option UserId) (cat : Catalog) (db : Store)
    : Response * Store :=
  match reqUser with
  | None => (failure 401 "User not authenticated", db)
  | Some u =>
      match db !! u with
      | Some cart => (ok None (Some (populate cat cart)), db)
      | None =>
          match save (newCart u) db with
          | (inr cart, db') => (ok None (Some (Plain cart)), db')
          | (inl e, db') => (caught "Error fetching cart" e, db')
          end
      end
  end.

(** [router.post('/add')].  The body's [quantity] defaults to 1;
    [!productId] holds of an absent field and of the empty string. *)
Definition postAdd (u : UserId) (bodyProductId : option ProductId)
    (bodyQuantity : option Z) (cat : Catalog) (db : Store) : Response * Store :=
  let qty := default 1 bodyQuantity in
  let productId := default EmptyString bodyProductId in
  if String.eqb productId EmptyString
  then (failure 400 "Product ID is required", db)
  else
    match cat !! productId with
    | None => (failure 404 "Product not found", db)
    | Some prod =>
        if product_stock prod <? qty
        then (failure 400 (outOfStock prod), db)
        else
          let cart := default (newCart u) (db !! u) in
          match addItem productId qty (product_price prod) cart db with
          | (inr cart', db') =>
              (ok (Some "Item added to cart")
                  (populate cat <$> findById cart' db'), db')
          | (inl e, db') => (caught "Error adding item to cart" e, db')
          end
    end.

(** [router.put('/update/:productId')] *)
Definition putUpdate (u : UserId) (productId : ProductId)
    (bodyQuantity : option Z) (cat : Catalog) (db : Store) : Response * Store :=
  match bodyQuantity with
  | None => (failure 400 "Valid quantity is required", db)
  | Some qty =>
      if qty <? 0
      then (failure 400 "Valid quantity is required", db)
      else
        match cat !! productId with
        | None => (failure 404 "Product not found", db)
        | Some prod =>
            if product_stock prod <? qty
            then (failure 400 (outOfStock prod), db)
            else
              match db !! u with
              | None => (failure 404 "Cart not found", db)
              | Some cart =>
                  match updateItemQuantity productId qty cart db with
                  | (inr cart', db') =>
                      (ok (Some "Cart updated")
                          (populate cat <$> findById cart' db'), db')
                  | (inl e, db') => (caught "Error updating cart" e, db')
                  end
              end
        end
  end.

(** [router.delete('/remove/:productId')] *)
Definition deleteRemove (u : UserId) (productId : ProductId)
    (cat : Catalog) (db : Store) : Response * Store :=
  match db !! u with
  | None => (failure 404 "Cart not found", db)
  | Some cart =>
      match removeItem productId cart db with
      | (inr cart', db') =>
          (ok (Some "Item removed from cart")
              (populate cat <$> findById cart' db'), db')
      | (inl e, db') => (caught "Error removing item from cart" e, db')
      end
  end.

(** [router.delete('/clear')] *)
Definition deleteClear (u : UserId) (db : Store) : Response * Store :=
  match db !! u with
  | None => (failure 404 "Cart not found", db)
  | Some cart =>
      match clearCart cart db with
      | (inr cart', db') => (ok (Some "Cart cleared") (Some (Plain cart')), db')
      | (inl e, db') => (caught "Error clearing cart" e, db')
      end
  end.

(** ** Sequences of method calls *)

Inductive Call :=
  | AddItem (productId : ProductId) (qty : Z) (unitPrice : Q)
  | UpdateItemQuantity (productId : ProductId) (qty : Z)
  | RemoveItem (productId : ProductId)
  | ClearCart.

Definition call (m : Call) : Cart -> Store -> Result Cart * Store :=
  match m with
  | AddItem productId qty unitPrice => addItem productId qty unitPrice
  | UpdateItemQuantity productId qty => updateItemQuantity productId qty
  | RemoveItem productId => removeItem productId
  | ClearCart => clearCart
  end.

(** One unit of work: the document of user [u] is fetched
    ([Cart.findOne], or [new Cart] when none is stored), one method is
    called on it, and the document in memory is dropped. *)
Definition step (db : Store) (r : UserId * Call) : Store :=
  snd (call (snd r) (default (newCart (fst r)) (db !! fst r)) db).

Definition run (rs : list (UserId * Call)) (db : Store) : Store :=
  fold_left step rs db.

(** ** The properties, as the specification words them *)

(** "sum(item.quantity for item in items)" *)
Fixpoint specTotalItems (l : list CartItem) : Z :=
  match l with
  | [] => 0
  | item :: rest => quantity item + specTotalItems rest
  end.

(** "sum(item.quantity * item.unitPrice for item in items)" *)
Fixpoint specTotalPrice (l : list CartItem) : Q :=
  match l with
  | [] => 0%Q
  | item :: rest => (inject_Z (quantity item) * price item + specTotalPrice rest)%Q
  end.

(** The schema's bounds on one item. *)
Definition validItem (item : CartItem) : Prop :=
  1 <= quantity item <= 100 /\ (0 <= price item)%Q.

(** "at most one CartItem per productId within a cart" *)
Definition uniqueProducts (l : list CartItem) : Prop :=
  NoDup (product <$> l).

(** The item stored for a product, if any: the first in sequence. *)
Definition itemOf (productId : ProductId) (c : Cart) : option CartItem :=
  List.find (sameProduct productId) (items c).

(** ** What a method does to the item sequence *)

(** The merge of [addItem]: [existingItem.quantity += quantity] and the
    clamp that follows it. *)
Definition merged (qty : Z) (existingItem : CartItem) : CartItem :=
  let q := quantity existingItem + qty in
  setQuantity (if 100 <? q then 100 else q) existingItem.

(** The item sequence a method hands to [save]; [None] where the method
    throws before it saves. *)
Definition nextItems (m : Call) (l : list CartItem) : option (list CartItem) :=
  match m with
  | AddItem productId qty unitPrice =>
      match List.find (sameProduct productId) l with
      | Some _ => Some (modifyFound (sameProduct productId) (merged qty) l)
      | None => Some (l ++ [{| product := productId; quantity := qty;
                               price := unitPrice |}])
      end
  | UpdateItemQuantity productId qty =>
      match List.find (sameProduct productId) l with
      | Some _ =>
          Some (if qty <=? 0 then List.filter (otherProduct productId) l
                else modifyFound (sameProduct productId) (setQuantity (Z.min qty 100)) l)
      | None => None
      end
  | RemoveItem productId => Some (List.filter (otherProduct productId) l)
  | ClearCart => Some []
  end.

(** A predicate that holds of every stored cart. *)
Definition everyCart (P : Cart -> Prop) (db : Store) : Prop :=
  forall u c, db !! u = Some c -> P c.

(** The stored totals are the ones the hook computes from the items. *)
Definition totalsComputed (c : Cart) : Prop :=
  totalItems c = sumQuantity (items c) /\ totalPrice c = sumPrice (items c).

(** What every document of the collection satisfies: it is stored under
    its own user, its items passed the validators, and its totals were
    computed by the hook. *)
Definition storedCart (u : UserId) (c : Cart) : Prop :=
  user c = u /\ Forall validItem (items c) /\ totalsComputed c.

Definition consistent (db : Store) : Prop :=
  forall u c, db !! u = Some c -> storedCart u c.

(** The validator errors that [save] reports for item [i]. *)
Definition belowMinimum (i : nat) : ValidatorError :=
  {| item_index := i; field := "quantity"; reason := "Quantity must be at least 1" |}.

Definition aboveMaximum (i : nat) : ValidatorError :=
  {| item_index := i; field := "quantity"; reason := "Quantity cannot exceed 100" |}.

(** ** Sequences of requests *)

Inductive Request :=
  | GetCart (reqUser : option UserId)
  | PostAdd (u : UserId) (bodyProductId : option ProductId) (bodyQuantity : option Z)
  | PutUpdate (u : UserId) (productId : ProductId) (bodyQuantity : option Z)
  | DeleteRemove (u : UserId) (productId : ProductId)
  | DeleteClear (u : UserId).

Definition handle (cat : Catalog) (r : Request) (db : Store) : Response * Store :=
  match r with
  | GetCart reqUser => getCart reqUser cat db
  | PostAdd u bodyProductId bodyQuantity => postAdd u bodyProductId bodyQuantity cat db
  | PutUpdate u productId bodyQuantity => putUpdate u productId bodyQuantity cat db
  | DeleteRemove u productId => deleteRemove u productId cat db
  | DeleteClear u => deleteClear u db
  end.

(** The catalog may change between two requests: each request comes
    with the catalog it is served against. *)
Definition serve (rs : list (Catalog * Request)) (db : Store) : Store :=
  fold_left (fun db r => snd (handle (fst r) (snd r) db)) rs db.

(** ** Sample data *)


Definition mugCart : Cart :=
  {| user := "alice";
     items := [{| product := "mug"; quantity := 4; price := 999 # 100 |};
               {| product := "pen"; quantity := 1; price := 1 # 2 |}];
     totalItems := 5; totalPrice := 8092 # 200 |}.


Definition mugStore : Store := {["alice" := mugCart]}.

Definition mugCatalog : Catalog :=
  {["mug" := {| product_price := 1099 # 100; product_stock := 10 |};
    "pen" := {| product_price := 1 # 2; product_stock := 2 |}]}.

(** A cart holding one product, four times. *)
Definition fourMugs : Cart :=
  {| user := "alice";
     items := [{| product := "mug"; quantity := 4; price := 999 # 100 |}];
     totalItems := 4; totalPrice := 3996 # 100 |}.

Definition fourMugsStore : Store := {["alice" := fourMugs]}.

(** The same catalog with fewer mugs in stock than the cart holds. *)
Definition scarceCatalog : Catalog :=
  {["mug" := {| product_price := 1099 # 100; product_stock := 3 |}]}.

(** ** Requests and responses, read back *)

(** The user that [protect] put on the request. *)
Definition requester (r : Request) : option UserId :=
  match r with
  | GetCart reqUser => reqUser
  | PostAdd u _ _ | PutUpdate u _ _ | DeleteRemove u _ | DeleteClear u => Some u
  end.

(** The cart that the [data] of a response shows. *)
Definition viewCart (v : CartView) : Cart :=
  match v with
  | Plain c | Expanded c _ => c
  end.

(** ** The product model: the stock status and the image hook *)

(** [productSchema.virtual('stockStatus')] *)
Definition stockStatus (this : Product) : string :=
  if product_stock this =? 0 then "Out of Stock"
  else if product_stock this <? 5 then "Low Stock"
  else "In Stock".

(** The two fields of a product that its [pre('save')] hook touches; a
    string is truthy when it is not empty. *)
Record ProductImages := {
  image : string;
  images : list string
}.

(** [productSchema.pre('save')] *)
Definition productPreSave (this : ProductImages) : ProductImages :=
  if negb (String.eqb (image this) EmptyString) && (length (images this) =? 0)%nat
  then {| image := image this; images := images this ++ [image this] |}
  else this.

(** ** More sample data *)

Definition aliceRequests : list (Catalog * Request) :=
  [(mugCatalog, GetCart (Some "alice"));
   (mugCatalog, PostAdd "alice" (Some "mug") (Some 2));
   (mugCatalog, PostAdd "alice" (Some "pen") None);
   (scarceCatalog, PutUpdate "alice" "pen" (Some 0));
   (mugCatalog, PostAdd "bob" (Some "mug") (Some 200))].

(** A cart whose one item is at the maximum. *)
Definition fullMugs : Cart :=
  {| user := "alice";
     items := [{| product := "mug"; quantity := 100; price := 999 # 100 |}];
     totalItems := 100; totalPrice := 99900 # 100 |}.
(** ** The reduce of the hook against the sums of the specification *)

Lemma sumQuantity_from (l : list CartItem) (a : Z) :
  fold_left (fun sum item => sum + quantity item) l a = a + specTotalItems l.
Proof.
  revert a; induction l as [|item rest IH]; intros a; simpl.
  - lia.
  - rewrite IH. lia.
Qed.

Lemma sumQuantity_spec (l : list CartItem) : sumQuantity l = specTotalItems l.
Proof. unfold sumQuantity. rewrite sumQuantity_from. lia. Qed.

Lemma sumPrice_from (l : list CartItem) (a : Q) :
  (fold_left (fun sum item => sum + price item * inject_Z (quantity item)) l a
   == a + specTotalPrice l)%Q.
Proof.
  revert a; induction l as [|item rest IH]; intros a; simpl.
  - ring.
  - rewrite IH. ring.
Qed.

Lemma sumPrice_spec (l : list CartItem) : (sumPrice l == specTotalPrice l)%Q.
Proof. unfold sumPrice. rewrite sumPrice_from. ring. Qed.

(** ** Validation *)

Lemma validateItem_nil (i : nat) (item : CartItem) :
  validateItem i item = [] <-> validItem item.
Proof.
  unfold validateItem, validItem.
  destruct (Z.ltb_spec (quantity item) 1), (Z.ltb_spec 100 (quantity item));
    destruct (Qle_bool 0 (price item)) eqn:Hp; simpl;
    try (split; [discriminate | intros [? ?]; lia]).
  - split; [intros _ | reflexivity]. split; [lia | by apply Qle_bool_iff].
  - split; [discriminate |]. intros [_ Hq%Qle_bool_iff]. congruence.
Qed.

Lemma validateItem_below (i : nat) (item : CartItem) :
  quantity item < 1 -> (0 <= price item)%Q -> validateItem i item = [belowMinimum i].
Proof.
  intros Hq Hp%Qle_bool_iff. unfold validateItem. rewrite Hp.
  destruct (Z.ltb_spec (quantity item) 1); [|lia].
  by destruct (Z.ltb_spec 100 (quantity item)); [lia|].
Qed.

Lemma validateItem_above (i : nat) (item : CartItem) :
  100 < quantity item -> (0 <= price item)%Q -> validateItem i item = [aboveMaximum i].
Proof.
  intros Hq Hp%Qle_bool_iff. unfold validateItem. rewrite Hp.
  destruct (Z.ltb_spec (quantity item) 1); [lia|].
  by destruct (Z.ltb_spec 100 (quantity item)); [|lia].
Qed.

Lemma mjoin_imap_nil {A B : Type} (f : nat -> A -> list B) (l : list A) :
  mjoin (imap f l) = [] <-> forall i x, l !! i = Some x -> f i x = [].
Proof.
  revert f; induction l as [|x l IH]; intros f; simpl.
  - split; [intros _ i y; by rewrite lookup_nil | done].
  - rewrite app_nil, IH. split.
    + intros [H0 Hr] [|i] y Hi; simpl in Hi; [by simplify_eq | by apply (Hr i y)].
    + intros H. split; [by apply (H 0%nat x) | intros i y Hi; by apply (H (S i) y)].
Qed.

Lemma validate_nil (c : Cart) : validate c = [] <-> Forall validItem (items c).
Proof.
  unfold validate. rewrite mjoin_imap_nil, Forall_lookup. split.
  - intros H i x Hi. by apply (validateItem_nil i), H.
  - intros H i x Hi. apply validateItem_nil. by apply (H i).
Qed.

Lemma validate_snoc (l : list CartItem) (item : CartItem) (this : Cart) :
  validate (setItems (l ++ [item]) this)
  = validate (setItems l this) ++ validateItem (length l) item.
Proof.
  unfold validate; simpl. rewrite imap_app, join_app. simpl.
  by rewrite app_nil_r, Nat.add_0_r.
Qed.

Lemma save_valid (this : Cart) (db : Store) :
  Forall validItem (items this) ->
  save this db = (inr (preSave this), <[user this := preSave this]> db).
Proof. intros H%validate_nil. unfold save. by rewrite H. Qed.

Lemma save_invalid (this : Cart) (db : Store) :
  ~ Forall validItem (items this) ->
  save this db = (inl (ValidationError (validate this)), db).
Proof.
  intros H. unfold save. destruct (validate this) eqn:E; [|done].
  by apply validate_nil in E.
Qed.

Lemma save_cases (this : Cart) (db : Store) :
  (Forall validItem (items this)
   /\ save this db = (inr (preSave this), <[user this := preSave this]> db))
  \/ (~ Forall validItem (items this)
      /\ save this db = (inl (ValidationError (validate this)), db)).
Proof.
  destruct (decide (validate this = [])) as [E|E].
  - left. apply validate_nil in E. split; [done | by apply save_valid].
  - right. assert (~ Forall validItem (items this)) as H.
    { by intros H%validate_nil. }
    split; [done | by apply save_invalid].
Qed.

Lemma call_nextItems (m : Call) (this : Cart) (db : Store) :
  call m this db =
  match nextItems m (items this) with
  | Some l => save (setItems l this) db
  | None => (inl (PlainError "Item not found in cart"), db)
  end.
Proof.
  destruct m as [p q pr|p q|p|]; simpl;
    unfold addItem, updateItemQuantity, removeItem, clearCart; try done.
  - by destruct (List.find _ _).
  - destruct (List.find _ _); [|done]. by destruct (q <=? 0).
Qed.

(** A call either throws and leaves the collection as it was, or writes
    the document that [preSave] computed from a valid item sequence. *)
Lemma call_cases (m : Call) (this : Cart) (db : Store) :
  (exists e, call m this db = (inl e, db))
  \/ (exists l, nextItems m (items this) = Some l /\ Forall validItem l
        /\ call m this db = (inr (preSave (setItems l this)),
                             <[user this := preSave (setItems l this)]> db)).
Proof.
  rewrite call_nextItems. destruct (nextItems m (items this)) as [l|]; [|by eauto].
  destruct (save_cases (setItems l this) db) as [[Hv ->]|[_ ->]]; [|by eauto].
  right. by exists l.
Qed.

Lemma everyCart_empty (P : Cart -> Prop) : everyCart P ∅.
Proof. intros u c. by rewrite lookup_empty. Qed.

Lemma everyCart_insert (P : Cart -> Prop) (db : Store) (u : UserId) (c : Cart) :
  P c -> everyCart P db -> everyCart P (<[u := c]> db).
Proof.
  intros Hc Hdb u' c'. rewrite lookup_insert. case_decide; [|by apply Hdb].
  by intros [= <-].
Qed.

(** An invariant of the stored carts: it is enough that every document a
    successful call returns satisfies it. *)
Lemma everyCart_run (P : Cart -> Prop) (Q : Cart -> Prop) :
  (forall u, Q (newCart u)) ->
  (forall c, P c -> Q c) ->
  (forall m this db c' db', Q this -> call m this db = (inr c', db') -> P c') ->
  forall rs db, everyCart P db -> everyCart P (run rs db).
Proof.
  intros Hnew HPQ Hcall rs. induction rs as [|[u m] rs IH]; intros db Hdb; [done|].
  simpl. apply IH. unfold step; simpl.
  set (this := default (newCart u) (db !! u)).
  assert (Q this) as Hthis.
  { unfold this. destruct (db !! u) as [c|] eqn:E; simpl; [|done].
    apply HPQ. by apply (Hdb u). }
  destruct (call_cases m this db) as [[e ->]|(l & _ & _ & E)]; [done|].
  rewrite E; simpl. apply everyCart_insert; [|done].
  by eapply Hcall.
Qed.



(** ** Products of the item sequence *)

Lemma sameProduct_true (productId : ProductId) (item : CartItem) :
  sameProduct productId item = true <-> product item = productId.
Proof. unfold sameProduct. apply String.eqb_eq. Qed.

Lemma sameProduct_false (productId : ProductId) (item : CartItem) :
  sameProduct productId item = false <-> product item <> productId.
Proof. unfold sameProduct. apply String.eqb_neq. Qed.

Lemma find_sameProduct_None (productId : ProductId) (l : list CartItem) :
  List.find (sameProduct productId) l = None <-> productId ∉ product <$> l.
Proof.
  induction l as [|item rest IH]; simpl.
  - split; [intros _; apply not_elem_of_nil | done].
  - rewrite not_elem_of_cons. destruct (sameProduct productId item) eqn:E.
    + apply sameProduct_true in E. split; [done | intros [? _]; congruence].
    + apply sameProduct_false in E. rewrite IH. split; [by split | by intros [_ ?]].
Qed.

Lemma find_sameProduct_Some (productId : ProductId) (l : list CartItem) (item : CartItem) :
  List.find (sameProduct productId) l = Some item ->
  item ∈ l /\ product item = productId.
Proof.
  intros [Hin Hp]%find_some. split; [by apply list_elem_of_In | by apply sameProduct_true].
Qed.

Lemma modifyFound_products (p : CartItem -> bool) (f : CartItem -> CartItem)
    (l : list CartItem) :
  (forall item, product (f item) = product item) ->
  product <$> modifyFound p f l = product <$> l.
Proof.
  intros Hf. induction l as [|item rest IH]; [done|].
  cbn [modifyFound]. destruct (p item); rewrite !fmap_cons; [by rewrite Hf | by rewrite IH].
Qed.

Lemma filter_products_sublist (q : CartItem -> bool) (l : list CartItem) :
  product <$> List.filter q l `sublist_of` product <$> l.
Proof.
  induction l as [|item rest IH]; [done|].
  cbn [List.filter]. destruct (q item); rewrite ?fmap_cons;
    [by apply sublist_skip | by apply sublist_cons].
Qed.

Lemma filter_otherProduct_absent (productId : ProductId) (l : list CartItem) :
  productId ∉ product <$> List.filter (otherProduct productId) l.
Proof.
  induction l as [|item rest IH]; simpl; [apply not_elem_of_nil|].
  unfold otherProduct at 1. destruct (String.eqb_spec (product item) productId); simpl.
  - done.
  - apply not_elem_of_cons. split; [congruence | done].
Qed.

Lemma filter_otherProduct_id (productId : ProductId) (l : list CartItem) :
  productId ∉ product <$> l -> List.filter (otherProduct productId) l = l.
Proof.
  induction l as [|item rest IH]; simpl; [done|].
  intros [Hne Hrest]%not_elem_of_cons.
  unfold otherProduct at 1. destruct (String.eqb_spec (product item) productId); simpl.
  - congruence.
  - by rewrite IH.
Qed.

Lemma nextItems_unique (m : Call) (l l' : list CartItem) :
  uniqueProducts l -> nextItems m l = Some l' -> uniqueProducts l'.
Proof.
  unfold uniqueProducts. intros Hl.
  destruct m as [p q pr|p q|p|]; simpl.
  - destruct (List.find _ _) eqn:E; intros [= <-].
    + by rewrite modifyFound_products.
    + rewrite fmap_app. apply NoDup_app. split; [done|]. split.
      * intros x Hx [->|[]%elem_of_nil]%elem_of_cons.
        by apply find_sameProduct_None in E.
      * apply NoDup_singleton.
  - destruct (List.find _ _) eqn:E; [|done]. intros [= <-].
    destruct (q <=? 0).
    + eapply sublist_NoDup; [done | apply filter_products_sublist].
    + by rewrite modifyFound_products.
  - intros [= <-]. eapply sublist_NoDup; [done | apply filter_products_sublist].
  - intros [= <-]. apply NoDup_nil_2.
Qed.

Lemma call_unique (m : Call) (this : Cart) (db : Store) (c' : Cart) (db' : Store) :
  uniqueProducts (items this) ->
  call m this db = (inr c', db') -> uniqueProducts (items c').
Proof.
  intros Hu E. destruct (call_cases m this db) as [[e E']|(l & Hl & _ & E')];
    rewrite E' in E; [done|].
  injection E as <- _. simpl. by eapply nextItems_unique.
Qed.

Lemma run_unique (rs : list (UserId * Call)) (db : Store) :
  everyCart (fun c => uniqueProducts (items c)) db ->
  everyCart (fun c => uniqueProducts (items c)) (run rs db).
Proof.
  apply (everyCart_run _ (fun c => uniqueProducts (items c))); [|done|].
  - intros u. apply NoDup_nil_2.
  - intros m this db0 c' db'. apply call_unique.
Qed.

(** ** Validity of the items a method hands to [save] *)

Lemma validItem_setQuantity (q : Z) (item : CartItem) :
  1 <= q <= 100 -> validItem item -> validItem (setQuantity q item).
Proof. intros Hq [_ Hp]. by split. Qed.

Lemma modifyFound_Forall (P : CartItem -> Prop) (p : CartItem -> bool)
    (f : CartItem -> CartItem) (l : list CartItem) :
  (forall item, p item = true -> P item -> P (f item)) ->
  Forall P l -> Forall P (modifyFound p f l).
Proof.
  intros Hf. induction 1 as [|item rest Hitem Hrest IH]; simpl; [done|].
  destruct (p item) eqn:E; constructor; auto.
Qed.

Lemma filter_Forall (P : CartItem -> Prop) (q : CartItem -> bool) (l : list CartItem) :
  Forall P l -> Forall P (List.filter q l).
Proof.
  induction 1 as [|item rest Hitem Hrest IH]; simpl; [done|].
  destruct (q item); [by constructor | done].
Qed.

(** ** The collection stays consistent *)

Lemma consistent_empty : consistent ∅.
Proof. intros u c. by rewrite lookup_empty. Qed.

Lemma consistent_insert (db : Store) (u : UserId) (c : Cart) :
  storedCart u c -> consistent db -> consistent (<[u := c]> db).
Proof.
  intros Hc Hdb u' c'. rewrite lookup_insert. case_decide; [|by apply Hdb].
  intros [= <-]. by subst.
Qed.

Lemma call_consistent (m : Call) (this : Cart) (db : Store) :
  consistent db -> consistent (snd (call m this db)).
Proof.
  intros Hdb. destruct (call_cases m this db) as [[e ->]|(l & _ & Hl & ->)]; [done|].
  simpl. apply consistent_insert; [|done]. by repeat split.
Qed.

Lemma run_consistent (rs : list (UserId * Call)) (db : Store) :
  consistent db -> consistent (run rs db).
Proof.
  revert db; induction rs as [|[u m] rs IH]; intros db Hdb; [done|].
  simpl. apply IH. by apply call_consistent.
Qed.

(** ** Looking an item up after a method *)

Lemma find_modifyFound (p : CartItem -> bool) (f : CartItem -> CartItem)
    (l : list CartItem) (item : CartItem) :
  p (f item) = true ->
  List.find p l = Some item -> List.find p (modifyFound p f l) = Some (f item).
Proof.
  intros Hf. induction l as [|x rest IH]; simpl; [done|].
  destruct (p x) eqn:E; simpl.
  - intros [= ->]. by rewrite Hf.
  - rewrite E. apply IH.
Qed.

Lemma find_filter_otherProduct (productId : ProductId) (l : list CartItem) :
  List.find (sameProduct productId) (List.filter (otherProduct productId) l) = None.
Proof. apply find_sameProduct_None, filter_otherProduct_absent. Qed.

Lemma clamp_min (q : Z) : (if 100 <? q then 100 else q) = Z.min q 100.
Proof. destruct (Z.ltb_spec 100 q); lia. Qed.

Lemma setItems_items (this : Cart) : setItems (items this) this = this.
Proof. by destruct this. Qed.

Lemma preSave_id (this : Cart) : totalsComputed this -> preSave this = this.
Proof. destruct this; intros [? ?]; simpl in *. by subst. Qed.

(** ** The item that [find] returns, and the items around it *)

Lemma find_split (p : CartItem -> bool) (l : list CartItem) (item : CartItem) :
  List.find p l = Some item ->
  exists before after,
    l = before ++ item :: after
    /\ Forall (fun x => p x = false) before
    /\ p item = true.
Proof.
  induction l as [|x rest IH]; simpl; [done|].
  destruct (p x) eqn:E.
  - intros [= ->]. by exists [], rest.
  - intros (before & after & -> & Hb & Hi)%IH.
    exists (x :: before), after. split; [done|]. split; [by constructor | done].
Qed.

Lemma modifyFound_split (p : CartItem -> bool) (f : CartItem -> CartItem)
    (before after : list CartItem) (item : CartItem) :
  Forall (fun x => p x = false) before -> p item = true ->
  modifyFound p f (before ++ item :: after) = before ++ f item :: after.
Proof.
  intros Hb Hi. induction Hb as [|x before Hx Hb IH]; simpl.
  - by rewrite Hi.
  - by rewrite Hx, IH.
Qed.

Lemma imap_validateItem_valid (g : nat -> nat) (l : list CartItem) :
  Forall validItem l -> mjoin (imap (fun n => validateItem (g n)) l) = [].
Proof.
  intros Hl. apply mjoin_imap_nil. intros i x Hi.
  apply validateItem_nil. by eapply Forall_lookup_1.
Qed.

(** With valid items around it, the errors of a sequence are those of
    the one item in between. *)
Lemma validate_around (before after : list CartItem) (item : CartItem) (this : Cart) :
  Forall validItem before -> Forall validItem after ->
  validate (setItems (before ++ item :: after) this)
  = validateItem (length before) item.
Proof.
  intros Hb Ha. unfold validate; simpl.
  rewrite imap_app, join_app. simpl.
  rewrite (imap_validateItem_valid id) by done.
  rewrite (imap_validateItem_valid (fun n => (length before + S n)%nat)) by done.
  by rewrite app_nil_r, Nat.add_0_r.
Qed.

(** [addItem] on a product that is present: the call is a [save] of the
    sequence in which the found item alone was replaced. *)
Lemma addItem_present (productId : ProductId) (qty : Z) (unitPrice : Q)
    (this : Cart) (db : Store) (item : CartItem) :
  itemOf productId this = Some item ->
  exists before after,
    items this = before ++ item :: after
    /\ Forall (fun x => sameProduct productId x = false) before
    /\ product item = productId
    /\ addItem productId qty unitPrice this db
       = save (setItems (before ++ merged qty item :: after) this) db.
Proof.
  unfold itemOf. intros Hitem.
  destruct (find_split _ _ _ Hitem) as (before & after & Hl & Hb & Hi).
  exists before, after. split; [done|]. split; [done|].
  split; [by apply sameProduct_true|].
  unfold addItem. rewrite Hitem. fold (merged qty). rewrite Hl.
  by rewrite modifyFound_split.
Qed.

Lemma merged_eq (qty : Z) (item : CartItem) :
  merged qty item = setQuantity (Z.min (quantity item + qty) 100) item.
Proof. unfold merged. by rewrite clamp_min. Qed.

Lemma find_around (productId : ProductId) (before after : list CartItem)
    (item : CartItem) :
  Forall (fun x => sameProduct productId x = false) before ->
  product item = productId ->
  List.find (sameProduct productId) (before ++ item :: after) = Some item.
Proof.
  intros Hb Hi. induction Hb as [|x before Hx Hb IH]; simpl.
  - apply sameProduct_true in Hi. by rewrite Hi.
  - by rewrite Hx.
Qed.

(** ** The handlers *)

Lemma fourMugsStore_consistent : consistent fourMugsStore.
Proof.
  intros u c. unfold fourMugsStore. rewrite lookup_singleton; case_decide; [|done].
  intros [= <-]. subst u. split; [done|]. split; [|by split].
  repeat constructor; simpl; lia || discriminate.
Qed.

(** Every handler leaves the collection as it was, or as one method
    call on the user's document (the stored one, or a new one) left it:
    a request is at most one [step]. *)
Lemma handle_step (cat : Catalog) (r : Request) (db : Store) :
  snd (handle cat r db) = db
  \/ exists u m, snd (handle cat r db) = step db (u, m).
Proof.
  unfold step.
  destruct r as [[u|]|u bp bq|u p [q|]|u p|u]; cbn [handle fst snd]; try by left.
  - unfold getCart. destruct (db !! u) eqn:E; [by left|].
    right. exists u, ClearCart. by rewrite E.
  - unfold postAdd. destruct (String.eqb _ EmptyString); [by left|].
    destruct (cat !! _) as [prod|]; [|by left].
    destruct (_ <? _); [by left|].
    right. exists u, (AddItem (default EmptyString bp) (default 1 bq) (product_price prod)).
    cbn [call]. by destruct (addItem _ _ _ _ _) as [[e|c'] db'].
  - unfold putUpdate. destruct (q <? 0); [by left|].
    destruct (cat !! p) as [prod|]; [|by left].
    destruct (_ <? _); [by left|].
    destruct (db !! u) as [cart|] eqn:E; [|by left].
    right. exists u, (UpdateItemQuantity p q). rewrite E. cbn [call default from_option id].
    by destruct (updateItemQuantity _ _ _ _) as [[e|c'] db'].
  - unfold deleteRemove. destruct (db !! u) as [cart|] eqn:E; [|by left].
    right. exists u, (RemoveItem p). rewrite E. cbn [call default from_option id].
    by destruct (removeItem _ _ _) as [[e|c'] db'].
  - unfold deleteClear. destruct (db !! u) as [cart|] eqn:E; [|by left].
    right. exists u, ClearCart. rewrite E. cbn [call default from_option id].
    by destruct (clearCart _ _) as [[e|c'] db'].
Qed.

(** So what a sequence of requests leaves is what some sequence of
    method calls leaves. *)
Lemma serve_run (rs : list (Catalog * Request)) (db : Store) :
  exists calls, serve rs db = run calls db.
Proof.
  revert db; induction rs as [|[cat r] rs IH]; intros db; [by exists []|].
  cbn [serve fold_left fst snd]. fold (serve rs (snd (handle cat r db))).
  destruct (IH (snd (handle cat r db))) as [calls ->].
  destruct (handle_step cat r db) as [->|(u & m & ->)].
  - by exists calls.
  - by exists ((u, m) :: calls).
Qed.

Lemma serve_consistent (rs : list (Catalog * Request)) (db : Store) :
  consistent db -> consistent (serve rs db).
Proof. destruct (serve_run rs db) as [calls ->]. apply run_consistent. Qed.

Lemma serve_unique (rs : list (Catalog * Request)) (db : Store) :
  everyCart (fun c => uniqueProducts (items c)) db ->
  everyCart (fun c => uniqueProducts (items c)) (serve rs db).
Proof. destruct (serve_run rs db) as [calls ->]. apply run_unique. Qed.

(** [POST /add] once the product was found and the stock check passed. *)
Lemma postAdd_accepted (u : UserId) (p : ProductId) (bq : option Z)
    (cat : Catalog) (db : Store) (prod : Product) :
  p <> EmptyString -> cat !! p = Some prod -> default 1 bq <= product_stock prod ->
  postAdd u (Some p) bq cat db =
  match addItem p (default 1 bq) (product_price prod)
          (default (newCart u) (db !! u)) db with
  | (inr cart', db') =>
      (ok (Some "Item added to cart") (populate cat <$> findById cart' db'), db')
  | (inl e, db') => (caught "Error adding item to cart" e, db')
  end.
Proof.
  intros Hp Hcat Hstock. unfold postAdd.
  change (default EmptyString (Some p)) with p.
  apply String.eqb_neq in Hp. rewrite Hp, Hcat.
  by destruct (Z.ltb_spec (product_stock prod) (default 1 bq)); [lia|].
Qed.

(** [POST /add] for a product that the stored cart of the user holds. *)
Lemma postAdd_present (u : UserId) (p : ProductId) (n : Z) (cat : Catalog)
    (db : Store) (c : Cart) (item : CartItem) (prod : Product) :
  consistent db -> db !! u = Some c -> itemOf p c = Some item ->
  p <> EmptyString -> cat !! p = Some prod -> n <= product_stock prod ->
  exists before after,
    items c = before ++ item :: after
    /\ Forall (fun x => sameProduct p x = false) before
    /\ product item = p
    /\ (1 <= quantity item + n ->
        postAdd u (Some p) (Some n) cat db
        = (ok (Some "Item added to cart")
              (Some (populate cat
                 (preSave (setItems (before ++ merged n item :: after) c)))),
           <[u := preSave (setItems (before ++ merged n item :: after) c)]> db))
    /\ (quantity item + n < 1 ->
        postAdd u (Some p) (Some n) cat db
        = (caught "Error adding item to cart"
             (ValidationError [belowMinimum (length before)]), db)).
Proof.
  intros Hdb Hc Hitem Hp Hcat Hstock.
  destruct (Hdb u c Hc) as (Hu & Hvalid & _).
  destruct (addItem_present p n (product_price prod) c db item Hitem)
    as (before & after & Hl & Hb & Hpi & Hadd).
  exists before, after. split; [done|]. split; [done|]. split; [done|].
  rewrite (postAdd_accepted u p (Some n) cat db prod) by done.
  rewrite Hc. cbn [default from_option id]. rewrite Hadd.
  rewrite Hl in Hvalid. apply Forall_app in Hvalid as [Hvb Hva].
  apply Forall_cons in Hva as [Hvi Hva]. split.
  - intros Hq. rewrite save_valid.
    + unfold findById. simpl. rewrite Hu, lookup_insert_eq. done.
    + simpl. apply Forall_app. split; [done|]. apply Forall_cons. split; [|done].
      rewrite merged_eq. apply validItem_setQuantity; [lia | done].
  - intros Hq. unfold save. rewrite validate_around by done.
    rewrite validateItem_below; [done | |].
    + rewrite merged_eq; simpl. lia.
    + rewrite merged_eq. by destruct Hvi.
Qed.

(** ** One step, seen from the collection *)

Lemma step_cases (db : Store) (u : UserId) (m : Call) :
  step db (u, m) = db
  \/ exists c', Forall validItem (items c')
       /\ totalsComputed c'
       /\ user c' = user (default (newCart u) (db !! u))
       /\ nextItems m (items (default (newCart u) (db !! u))) = Some (items c')
       /\ step db (u, m) = <[user c' := c']> db.
Proof.
  unfold step; cbn [fst snd].
  destruct (call_cases m (default (newCart u) (db !! u)) db)
    as [[e ->]|(l & Hl & Hv & ->)]; [by left|].
  right. exists (preSave (setItems l (default (newCart u) (db !! u)))).
  by repeat split.
Qed.

Lemma loaded_user (db : Store) (u : UserId) :
  consistent db -> user (default (newCart u) (db !! u)) = u.
Proof.
  intros Hdb. destruct (db !! u) as [c|] eqn:E; [|done].
  by destruct (Hdb u c E).
Qed.

Lemma step_other (db : Store) (u v : UserId) (m : Call) :
  consistent db -> v <> u -> step db (u, m) !! v = db !! v.
Proof.
  intros Hdb Hv. destruct (step_cases db u m) as [->|(c' & _ & _ & Hu & _ & ->)]; [done|].
  rewrite Hu, loaded_user by done. by rewrite lookup_insert_ne.
Qed.

Lemma step_keeps (db : Store) (u v : UserId) (m : Call) :
  is_Some (db !! v) -> is_Some (step db (u, m) !! v).
Proof.
  intros Hv. destruct (step_cases db u m) as [->|(c' & _ & _ & _ & _ & ->)]; [done|].
  rewrite lookup_insert. by case_decide.
Qed.

(** The [step] of a request is a step of its requester. *)
Lemma handle_step_requester (cat : Catalog) (r : Request) (db : Store) :
  snd (handle cat r db) = db
  \/ exists u m, requester r = Some u /\ snd (handle cat r db) = step db (u, m).
Proof.
  unfold step.
  destruct r as [[u|]|u bp bq|u p [q|]|u p|u]; cbn [handle fst snd requester];
    try by left.
  - unfold getCart. destruct (db !! u) eqn:E; [by left|].
    right. exists u, ClearCart. by rewrite E.
  - unfold postAdd. destruct (String.eqb _ EmptyString); [by left|].
    destruct (cat !! _) as [prod|]; [|by left].
    destruct (_ <? _); [by left|].
    right. exists u, (AddItem (default EmptyString bp) (default 1 bq) (product_price prod)).
    split; [done|]. cbn [call]. by destruct (addItem _ _ _ _ _) as [[e|c'] db'].
  - unfold putUpdate. destruct (q <? 0); [by left|].
    destruct (cat !! p) as [prod|]; [|by left].
    destruct (_ <? _); [by left|].
    destruct (db !! u) as [cart|] eqn:E; [|by left].
    right. exists u, (UpdateItemQuantity p q). rewrite E. split; [done|].
    cbn [call default from_option id].
    by destruct (updateItemQuantity _ _ _ _) as [[e|c'] db'].
  - unfold deleteRemove. destruct (db !! u) as [cart|] eqn:E; [|by left].
    right. exists u, (RemoveItem p). rewrite E. split; [done|].
    cbn [call default from_option id].
    by destruct (removeItem _ _ _) as [[e|c'] db'].
  - unfold deleteClear. destruct (db !! u) as [cart|] eqn:E; [|by left].
    right. exists u, ClearCart. rewrite E. split; [done|].
    cbn [call default from_option id].
    by destruct (clearCart _ _) as [[e|c'] db'].
Qed.

(** What a method returns: the error and the collection as it was, or
    the saved document and the collection with it. *)
Lemma method_result (m : Call) (this : Cart) (db : Store) :
  (exists e, call m this db = (inl e, db))
  \/ (exists c', call m this db = (inr c', <[user this := c']> db)
        /\ user c' = user this).
Proof.
  destruct (call_cases m this db) as [[e ->]|(l & _ & _ & ->)]; [by eauto|].
  right. by eexists.
Qed.

(** The three shapes of an answer. *)
Lemma handle_response_shape (cat : Catalog) (r : Request) (db : Store) :
  (exists msg, fst (handle cat r db) = failure 401 msg /\ requester r = None)
  \/ (exists code msg, (code = 400 \/ code = 404)
        /\ fst (handle cat r db) = failure code msg /\ is_Some (requester r))
  \/ (exists msg e, fst (handle cat r db) = caught msg e /\ is_Some (requester r))
  \/ (exists msg d, fst (handle cat r db) = ok msg d /\ is_Some (requester r)).
Proof.
  pose proof (fun (u : UserId) => mk_is_Some (Some u) u eq_refl) as Hu.
  destruct r as [[u|]|u bp bq|u p [q|]|u p|u]; cbn [handle requester].
  - unfold getCart. destruct (db !! u); [right; right; right; cbn; eauto|].
    rewrite save_valid by constructor. right; right; right; cbn; eauto.
  - left. cbn. eauto.
  - unfold postAdd. destruct (String.eqb (default EmptyString bp) EmptyString).
    { right; left. exists 400. cbn. eauto. }
    destruct (cat !! default EmptyString bp) as [prod|].
    2:{ right; left. exists 404. cbn. eauto. }
    destruct (product_stock prod <? default 1 bq).
    { right; left. exists 400. cbn. eauto. }
    destruct (addItem _ _ _ _ db) as [[e|c'] db']; cbn.
    + right; right; left. eauto.
    + right; right; right. eauto.
  - unfold putUpdate. destruct (q <? 0).
    { right; left. exists 400. cbn. eauto. }
    destruct (cat !! p) as [prod|].
    2:{ right; left. exists 404. cbn. eauto. }
    destruct (product_stock prod <? q).
    { right; left. exists 400. cbn. eauto. }
    destruct (db !! u) as [cart|].
    2:{ right; left. exists 404. cbn. eauto. }
    destruct (updateItemQuantity _ _ _ db) as [[e|c'] db']; cbn.
    + right; right; left. eauto.
    + right; right; right. eauto.
  - unfold putUpdate. right; left. exists 400. cbn. eauto.
  - unfold deleteRemove. destruct (db !! u) as [cart|].
    2:{ right; left. exists 404. cbn. eauto. }
    destruct (removeItem _ _ db) as [[e|c'] db']; cbn.
    + right; right; left. eauto.
    + right; right; right. eauto.
  - unfold deleteClear. destruct (db !! u) as [cart|].
    2:{ right; left. exists 404. cbn. eauto. }
    destruct (clearCart _ db) as [[e|c'] db']; cbn.
    + right; right; left. eauto.
    + right; right; right. eauto.
Qed.

(** ** Sums over the items *)

Lemma specTotalItems_app (l1 l2 : list CartItem) :
  specTotalItems (l1 ++ l2) = specTotalItems l1 + specTotalItems l2.
Proof. induction l1 as [|x l1 IH]; simpl; lia. Qed.

Lemma specTotalPrice_app (l1 l2 : list CartItem) :
  (specTotalPrice (l1 ++ l2) == specTotalPrice l1 + specTotalPrice l2)%Q.
Proof.
  induction l1 as [|x l1 IH]; simpl; [ring|]. rewrite IH. ring.
Qed.

Lemma valid_quantity_bounds (l : list CartItem) :
  Forall validItem l ->
  Z.of_nat (length l) <= specTotalItems l <= 100 * Z.of_nat (length l).
Proof.
  induction 1 as [|x l [Hq _] _ IH]; simpl; lia.
Qed.

Lemma valid_price_nonneg (l : list CartItem) :
  Forall validItem l -> (0 <= specTotalPrice l)%Q.
Proof.
  induction 1 as [|x l [Hq Hp] _ IH]; simpl; [apply Qle_refl|].
  apply (Qle_trans _ (0 + 0)); [apply Qle_refl|].
  apply Qplus_le_compat; [|done].
  apply Qmult_le_0_compat; [|done].
  change 0%Q with (inject_Z 0). rewrite <- Zle_Qle. lia.
Qed.

(** ** Looking up another product after a method *)




Lemma find_snoc (p' : ProductId) (l : list CartItem) (new : CartItem) :
  List.find (sameProduct p') (l ++ [new])
  = match List.find (sameProduct p') l with
    | Some x => Some x
    | None => if sameProduct p' new then Some new else None
    end.
Proof.
  induction l as [|x l IH]; [done|]. cbn [app List.find].
  by destruct (sameProduct p' x).
Qed.

Lemma filter_around (p : ProductId) (before after : list CartItem) (item : CartItem) :
  Forall (fun x => sameProduct p x = false) before ->
  product item = p ->
  p ∉ product <$> after ->
  List.filter (otherProduct p) (before ++ item :: after) = before ++ after.
Proof.
  intros Hb Hi Ha. rewrite List.filter_app. cbn [List.filter].
  unfold otherProduct at 2. apply String.eqb_eq in Hi. rewrite Hi. cbn.
  rewrite (filter_otherProduct_id p after) by done.
  f_equal. induction Hb as [|x before Hx Hb IH]; [done|]. cbn [List.filter].
  unfold otherProduct at 1. unfold sameProduct in Hx. rewrite Hx. cbn. by rewrite IH.
Qed.

Lemma unique_around (before after : list CartItem) (item : CartItem) :
  uniqueProducts (before ++ item :: after) -> product item ∉ product <$> after.
Proof.
  unfold uniqueProducts. rewrite fmap_app, fmap_cons.
  intros (_ & _ & Hn)%NoDup_app. by apply NoDup_cons in Hn as [? _].
Qed.

(** [removeItem] of a product that the cart holds once. *)
Lemma removeItem_present (p : ProductId) (this : Cart) (db : Store) (item : CartItem) :
  Forall validItem (items this) -> uniqueProducts (items this) ->
  itemOf p this = Some item ->
  exists before after,
    items this = before ++ item :: after
    /\ List.filter (otherProduct p) (items this) = before ++ after
    /\ removeItem p this db
       = (inr (preSave (setItems (before ++ after) this)),
          <[user this := preSave (setItems (before ++ after) this)]> db)
    /\ specTotalItems (before ++ after) = specTotalItems (items this) - quantity item
    /\ (specTotalPrice (before ++ after)
        == specTotalPrice (items this) - price item * inject_Z (quantity item))%Q.
Proof.
  intros Hvalid Hunique Hitem. unfold itemOf in Hitem.
  destruct (find_split _ _ _ Hitem) as (before & after & Hl & Hb & Hi).
  apply sameProduct_true in Hi.
  exists before, after. split; [done|].
  assert (List.filter (otherProduct p) (items this) = before ++ after) as Hf.
  { rewrite Hl. apply filter_around; [done | done |].
    rewrite Hl in Hunique. apply unique_around in Hunique. by rewrite Hi in Hunique. }
  split; [done|]. split.
  - unfold removeItem. rewrite Hf. rewrite save_valid; [done|]. simpl.
    rewrite <- Hf. by apply filter_Forall.
  - rewrite Hl. split.
    + rewrite !specTotalItems_app. simpl. lia.
    + rewrite !specTotalPrice_app. simpl. ring.
Qed.

(** ** A method after a method *)

(** [addItem] of a product that the cart does not hold, on valid input. *)
Lemma addItem_absent (p : ProductId) (q : Z) (unitPrice : Q) (this : Cart) (db : Store) :
  itemOf p this = None -> Forall validItem (items this) ->
  1 <= q <= 100 -> (0 <= unitPrice)%Q ->
  addItem p q unitPrice this db
  = (inr (preSave (setItems (items this ++
            [{| product := p; quantity := q; price := unitPrice |}]) this)),
     <[user this := preSave (setItems (items this ++
            [{| product := p; quantity := q; price := unitPrice |}]) this)]> db).
Proof.
  intros Habsent Hvalid Hq Hprice. unfold itemOf in Habsent.
  unfold addItem. rewrite Habsent. rewrite save_valid; [done|].
  simpl. apply Forall_app. split; [done|]. apply Forall_singleton. by split.
Qed.


Lemma find_snoc_new (p : ProductId) (l : list CartItem) (new : CartItem) :
  List.find (sameProduct p) l = None -> product new = p ->
  List.find (sameProduct p) (l ++ [new]) = Some new.
Proof.
  intros Hl Hn. rewrite find_snoc, Hl.
  apply sameProduct_true in Hn. by rewrite Hn.
Qed.


(** [updateItemQuantity] with a positive quantity, on a valid cart that
    holds the product. *)
Lemma updateItemQuantity_present (p : ProductId) (q : Z) (this : Cart) (db : Store)
    (item : CartItem) :
  Forall validItem (items this) -> itemOf p this = Some item -> 0 < q ->
  exists before after,
    items this = before ++ item :: after
    /\ Forall (fun x => sameProduct p x = false) before
    /\ product item = p
    /\ updateItemQuantity p q this db
       = (inr (preSave (setItems
                 (before ++ setQuantity (Z.min q 100) item :: after) this)),
          <[user this := preSave (setItems
                 (before ++ setQuantity (Z.min q 100) item :: after) this)]> db).
Proof.
  intros Hvalid Hitem Hq. unfold itemOf in Hitem.
  destruct (find_split _ _ _ Hitem) as (before & after & Hl & Hb & Hi).
  exists before, after. split; [done|]. split; [done|].
  split; [by apply sameProduct_true|].
  unfold updateItemQuantity. rewrite Hitem.
  destruct (Z.leb_spec q 0); [lia|].
  rewrite Hl, modifyFound_split by done.
  rewrite save_valid; [done|]. simpl.
  rewrite Hl in Hvalid. apply Forall_app in Hvalid as [Hvb Hva].
  apply Forall_cons in Hva as [Hvi Hva].
  apply Forall_app. split; [done|]. apply Forall_cons. split; [|done].
  apply validItem_setQuantity; [lia | done].
Qed.

(** ** [PUT /update] and [DELETE /remove] past their checks *)

Lemma putUpdate_accepted (u : UserId) (p : ProductId) (q : Z) (cat : Catalog)
    (db : Store) (prod : Product) (cart : Cart) :
  0 <= q -> cat !! p = Some prod -> q <= product_stock prod -> db !! u = Some cart ->
  putUpdate u p (Some q) cat db =
  match updateItemQuantity p q cart db with
  | (inr cart', db') =>
      (ok (Some "Cart updated") (populate cat <$> findById cart' db'), db')
  | (inl e, db') => (caught "Error updating cart" e, db')
  end.
Proof.
  intros Hq Hcat Hstock Hc. unfold putUpdate.
  destruct (Z.ltb_spec q 0); [lia|]. rewrite Hcat.
  destruct (Z.ltb_spec (product_stock prod) q); [lia|]. by rewrite Hc.
Qed.

Lemma deleteRemove_stored (u : UserId) (p : ProductId) (cat : Catalog)
    (db : Store) (c : Cart) :
  consistent db -> db !! u = Some c ->
  deleteRemove u p cat db
  = (ok (Some "Item removed from cart")
        (Some (populate cat
           (preSave (setItems (List.filter (otherProduct p) (items c)) c)))),
     <[u := preSave (setItems (List.filter (otherProduct p) (items c)) c)]> db).
Proof.
  intros Hdb Hc. destruct (Hdb u c Hc) as (Hu & Hvalid & _).
  unfold deleteRemove, removeItem. rewrite Hc.
  rewrite save_valid by by apply filter_Forall.
  unfold findById. cbn [user preSave setItems]. rewrite Hu, lookup_insert_eq. done.
Qed.

(** ** What a successful [addItem] leaves *)

Lemma addItem_holds_product (p : ProductId) (q : Z) (unitPrice : Q)
    (this : Cart) (db : Store) (c' : Cart) (db' : Store) :
  addItem p q unitPrice this db = (inr c', db') ->
  db' !! user this = Some c'
  /\ Forall validItem (items c')
  /\ is_Some (itemOf p c').
Proof.
  intros E.
  destruct (call_cases (AddItem p q unitPrice) this db) as [[e E']|(l & Hl & Hv & E')];
    cbn [call] in E'; rewrite E' in E; [done|].
  injection E as <- <-. split; [apply lookup_insert_eq|]. split; [done|].
  unfold itemOf. cbn [items preSave setItems]. cbn [nextItems] in Hl.
  destruct (List.find (sameProduct p) (items this)) as [item|] eqn:Hfind;
    injection Hl as <-.
  - exists (merged q item). apply find_modifyFound; [|done].
    apply find_sameProduct_Some in Hfind as [_ Hp]. by apply sameProduct_true.
  - eexists. by apply find_snoc_new.
Qed.



(** ** Claims *)



(** The same after any sequence of requests, each served against its
    own catalog. *)
Corollary served_totals_are_sums (rs : list (Catalog * Request)) (u : UserId) (c : Cart) :
  serve rs ∅ !! u = Some c ->
  user c = u
  /\ Forall validItem (items c)
  /\ totalItems c = specTotalItems (items c)
  /\ (totalPrice c == specTotalPrice (items c))%Q.
Proof.
  intros Hc. destruct (serve_consistent rs ∅ consistent_empty u c Hc)
    as (Hu & Hvalid & Hi & Hp).
  split; [done|]. split; [done|].
  split; [by rewrite Hi, sumQuantity_spec | by rewrite Hp, sumPrice_spec].
Qed.



Corollary served_products_unique (rs : list (Catalog * Request)) (u : UserId) (c : Cart) :
  serve rs ∅ !! u = Some c -> uniqueProducts (items c).
Proof. apply (serve_unique rs ∅), everyCart_empty. Qed.

(** C3, as amended.  For a product that is not in the cart, [addItem]
    appends the item with the quantity it is given and [save] validates
    it: a quantity above 100 is rejected with the schema's "Quantity
    cannot exceed 100" and nothing is written; a quantity from 1 to 100
    is stored as it is.  Only the merge into an existing item clamps. *)
Theorem addItem_new_product_quantity (productId : ProductId) (qty : Z)
    (unitPrice : Q) (this : Cart) (db : Store) :
  itemOf productId this = None ->
  Forall validItem (items this) ->
  (0 <= unitPrice)%Q ->
  (100 < qty ->
     addItem productId qty unitPrice this db
     = (inl (ValidationError [aboveMaximum (length (items this))]), db))
  /\ (1 <= qty <= 100 ->
      exists c',
        addItem productId qty unitPrice this db = (inr c', <[user this := c']> db)
        /\ items c' = items this ++
             [{| product := productId; quantity := qty; price := unitPrice |}]).
Proof.
  intros Habsent Hvalid Hprice. unfold itemOf in Habsent.
  unfold addItem. rewrite Habsent. split.
  - intros Hq. unfold save. rewrite validate_snoc.
    assert (validate (setItems (items this) this) = []) as ->
      by by apply validate_nil.
    by rewrite validateItem_above.
  - intros Hq. rewrite save_valid.
    + by eexists.
    + simpl. apply Forall_app. split; [done|].
      apply Forall_singleton. by split.
Qed.

Lemma addItem_new_product_quantity_witness :
  addItem "mug" 150 (999 # 100) (newCart "alice") ∅
  = (inl (ValidationError [aboveMaximum 0]), ∅)
  /\ (1 <= 150 <= 100 ->
      exists c',
        addItem "mug" 150 (999 # 100) (newCart "alice") ∅
        = (inr c', <[user (newCart "alice") := c']> ∅)
        /\ items c' = items (newCart "alice") ++
             [{| product := "mug"; quantity := 150; price := 999 # 100 |}]).
Proof.
  pose proof (addItem_new_product_quantity "mug" 150 (999 # 100) (newCart "alice") ∅)
    as H.
  destruct H as [Hhigh Hin]; [reflexivity | constructor | discriminate |].
  split; [apply Hhigh; lia | exact Hin].
Defined.

(** C3, as stated, fails: [addItem(p, 150, price)] on an empty cart does
    not succeed with one item of quantity 100. *)
Lemma addItem_150_on_empty_cart_not_clamped :
  ~ exists c' db',
      addItem "mug" 150 (999 # 100) (newCart "alice") ∅ = (inr c', db')
      /\ items c' = [{| product := "mug"; quantity := 100; price := 999 # 100 |}].
Proof. intros (c' & db' & E & _). vm_compute in E. discriminate E. Qed.

Example addItem_150_on_empty_cart :
  addItem "mug" 150 (999 # 100) (newCart "alice") ∅
  = (inl (ValidationError
            [{| item_index := 0; field := "quantity";
                reason := "Quantity cannot exceed 100" |}]), ∅).
Proof. reflexivity. Qed.

(** The merge, in contrast, clamps: 4 + 150 is stored as 100. *)
Example addItem_150_on_four_mugs :
  fst (addItem "mug" 150 (1099 # 100) fourMugs fourMugsStore)
  = inr {| user := "alice";
           items := [{| product := "mug"; quantity := 100; price := 999 # 100 |}];
           totalItems := 100; totalPrice := 99900 # 100 |}.
Proof. reflexivity. Qed.

(** C5, as amended.  [updateItemQuantity(p, q)] fails with "Item not
    found in cart" whenever the cart has no item for [p], for every [q]
    (also for [q <= 0]).  When the item is present, [q <= 0] removes it
    (and the result does not depend on which [q <= 0] was given), and
    [q > 0] sets its quantity to [min(q, 100)]. *)
Theorem updateItemQuantity_cases (productId : ProductId) (qty : Z)
    (this : Cart) (db : Store) :
  Forall validItem (items this) ->
  (itemOf productId this = None ->
     updateItemQuantity productId qty this db
     = (inl (PlainError "Item not found in cart"), db))
  /\ (is_Some (itemOf productId this) -> qty <= 0 ->
      updateItemQuantity productId qty this db
      = updateItemQuantity productId 0 this db
      /\ exists c',
          updateItemQuantity productId qty this db = (inr c', <[user this := c']> db)
          /\ items c' = List.filter (otherProduct productId) (items this)
          /\ itemOf productId c' = None)
  /\ (forall item, itemOf productId this = Some item -> 0 < qty ->
      exists c',
        updateItemQuantity productId qty this db = (inr c', <[user this := c']> db)
        /\ itemOf productId c' = Some (setQuantity (Z.min qty 100) item)
        /\ product <$> items c' = product <$> items this).
Proof.
  intros Hvalid. unfold itemOf, updateItemQuantity. split; [|split].
  - by intros ->.
  - intros [item ->] Hq. destruct (Z.leb_spec qty 0); [|lia]. split; [done|].
    rewrite save_valid by by apply filter_Forall.
    eexists. split; [done|]. split; [done|]. apply find_filter_otherProduct.
  - intros item Hitem Hq. rewrite Hitem. destruct (Z.leb_spec qty 0); [lia|].
    rewrite save_valid.
    + eexists. split; [done|]. simpl. split.
      * apply find_modifyFound; [|done].
        apply find_sameProduct_Some in Hitem as [_ Hp]. by apply sameProduct_true.
      * by apply modifyFound_products.
    + simpl. apply modifyFound_Forall; [|done].
      intros x _. apply validItem_setQuantity. lia.
Qed.

Lemma updateItemQuantity_cases_witness :
  (itemOf "cup" mugCart = None ->
     updateItemQuantity "cup" 0 mugCart ∅
     = (inl (PlainError "Item not found in cart"), ∅))
  /\ (is_Some (itemOf "cup" mugCart) -> 0 <= 0 ->
      updateItemQuantity "cup" 0 mugCart ∅ = updateItemQuantity "cup" 0 mugCart ∅
      /\ exists c',
          updateItemQuantity "cup" 0 mugCart ∅ = (inr c', <[user mugCart := c']> ∅)
          /\ items c' = List.filter (otherProduct "cup") (items mugCart)
          /\ itemOf "cup" c' = None)
  /\ (forall item, itemOf "cup" mugCart = Some item -> 0 < 0 ->
      exists c',
        updateItemQuantity "cup" 0 mugCart ∅ = (inr c', <[user mugCart := c']> ∅)
        /\ itemOf "cup" c' = Some (setQuantity (Z.min 0 100) item)
        /\ product <$> items c' = product <$> items mugCart).
Proof.
  apply (updateItemQuantity_cases "cup" 0 mugCart ∅).
  repeat constructor; simpl; lia || discriminate.
Defined.

(** C5, as stated, fails: with [q <= 0] and no item for [p] in the cart
    the method throws. *)
Lemma updateItemQuantity_zero_absent_throws :
  ~ exists c' db', updateItemQuantity "mug" 0 (newCart "alice") ∅ = (inr c', db').
Proof. intros (c' & db' & E). vm_compute in E. discriminate E. Qed.

Example updateItemQuantity_zero_absent :
  updateItemQuantity "cup" 0 mugCart mugStore
  = (inl (PlainError "Item not found in cart"), mugStore).
Proof. reflexivity. Qed.

Example updateItemQuantity_zero_or_less :
  fst (updateItemQuantity "mug" 0 mugCart mugStore)
  = inr {| user := "alice";
           items := [{| product := "pen"; quantity := 1; price := 1 # 2 |}];
           totalItems := 1; totalPrice := 1 # 2 |}
  /\ updateItemQuantity "mug" (-1) mugCart mugStore
     = updateItemQuantity "mug" 0 mugCart mugStore.
Proof. split; reflexivity. Qed.

Example updateItemQuantity_above_100 :
  fst (updateItemQuantity "mug" 150 mugCart mugStore)
  = inr {| user := "alice";
           items := [{| product := "mug"; quantity := 100; price := 999 # 100 |};
                     {| product := "pen"; quantity := 1; price := 1 # 2 |}];
           totalItems := 101; totalPrice := 199900 # 200 |}.
Proof. reflexivity. Qed.

(** C8.  On a cart that has no item for [p], [removeItem(p)] succeeds and
    returns the cart with the items and both totals it had; a second call
    does the same, and the stored document is the one that was stored. *)
Theorem removeItem_absent_unchanged (productId : ProductId) (this : Cart) (db : Store) :
  itemOf productId this = None ->
  Forall validItem (items this) ->
  totalsComputed this ->
  removeItem productId this db = (inr this, <[user this := this]> db)
  /\ removeItem productId this (<[user this := this]> db)
     = (inr this, <[user this := this]> db)
  /\ (db !! user this = Some this -> removeItem productId this db = (inr this, db)).
Proof.
  intros Habsent Hvalid Htotals. unfold itemOf in Habsent.
  assert (forall db0, removeItem productId this db0
                      = (inr this, <[user this := this]> db0)) as Hrm.
  { intros db0. unfold removeItem.
    rewrite filter_otherProduct_id by by apply find_sameProduct_None.
    rewrite setItems_items, save_valid by done. by rewrite preSave_id. }
  split; [apply Hrm|]. split.
  - by rewrite Hrm, insert_insert_eq.
  - intros Hstored. by rewrite Hrm, insert_id.
Qed.

Lemma removeItem_absent_unchanged_witness :
  removeItem "cup" mugCart mugStore = (inr mugCart, <[user mugCart := mugCart]> mugStore)
  /\ removeItem "cup" mugCart (<[user mugCart := mugCart]> mugStore)
     = (inr mugCart, <[user mugCart := mugCart]> mugStore)
  /\ (mugStore !! user mugCart = Some mugCart ->
      removeItem "cup" mugCart mugStore = (inr mugCart, mugStore)).
Proof.
  apply (removeItem_absent_unchanged "cup" mugCart mugStore).
  - reflexivity.
  - repeat constructor; simpl; lia || discriminate.
  - split; reflexivity.
Defined.

(** C9.  When [addItem] merges into the item stored for [p], the returned
    cart has the same items in the same order except that this one item
    has the merged quantity: its product and its price are the stored
    ones, whatever price was passed in, and every other item is the one
    that was there; on a valid cart the merge succeeds as soon as the
    merged quantity is at least 1. *)
Theorem addItem_merge_changes_quantity_only (productId : ProductId) (qty : Z)
    (unitPrice : Q) (this : Cart) (db : Store) (item : CartItem) :
  itemOf productId this = Some item ->
  (forall c' db',
     addItem productId qty unitPrice this db = (inr c', db') ->
     user c' = user this
     /\ exists before after,
         items this = before ++ item :: after
         /\ Forall (fun x => product x <> productId) before
         /\ items c' = before ++
              {| product := product item;
                 quantity := Z.min (quantity item + qty) 100;
                 price := price item |} :: after)
  /\ (Forall validItem (items this) -> 1 <= quantity item + qty ->
      exists c', addItem productId qty unitPrice this db
                 = (inr c', <[user this := c']> db)).
Proof.
  intros Hitem.
  destruct (addItem_present productId qty unitPrice this db item Hitem)
    as (before & after & Hl & Hb & Hp & ->).
  rewrite merged_eq. split.
  - intros c' db' E.
    set (l' := before ++ setQuantity (Z.min (quantity item + qty) 100) item :: after) in *.
    destruct (save_cases (setItems l' this) db) as [[_ E']|[_ E']];
      rewrite E' in E; [|done].
    injection E as <- _. split; [done|]. exists before, after.
    split; [done|]. split; [|done].
    eapply Forall_impl; [exact Hb|]. intros x Hx. by apply sameProduct_false.
  - intros Hvalid Hq. rewrite save_valid; [by eexists|].
    simpl. rewrite Hl in Hvalid. apply Forall_app in Hvalid as [Hvb Hva].
    apply Forall_cons in Hva as [Hvi Hva].
    apply Forall_app. split; [done|]. apply Forall_cons. split; [|done].
    apply validItem_setQuantity; [lia | done].
Qed.

Lemma addItem_merge_changes_quantity_only_witness :
  (forall c' db',
     addItem "mug" 3 (1099 # 100) mugCart mugStore = (inr c', db') ->
     user c' = user mugCart
     /\ exists before after,
         items mugCart
         = before ++ {| product := "mug"; quantity := 4; price := 999 # 100 |} :: after
         /\ Forall (fun x => product x <> "mug") before
         /\ items c' = before ++
              {| product := "mug"; quantity := Z.min (4 + 3) 100;
                 price := 999 # 100 |} :: after)
  /\ (Forall validItem (items mugCart) -> 1 <= 4 + 3 ->
      exists c', addItem "mug" 3 (1099 # 100) mugCart mugStore
                 = (inr c', <[user mugCart := c']> mugStore)).
Proof.
  apply (addItem_merge_changes_quantity_only "mug" 3 (1099 # 100) mugCart mugStore
           {| product := "mug"; quantity := 4; price := 999 # 100 |}).
  reflexivity.
Defined.

(** At the service, where the price passed in is the catalog's current
    one: the stored price of the merged item is the one it had. *)
Lemma postAdd_keeps_stored_price (u : UserId) (p : ProductId) (n : Z)
    (cat : Catalog) (db : Store) (c : Cart) (item : CartItem) (prod : Product) :
  consistent db -> db !! u = Some c -> itemOf p c = Some item ->
  p <> EmptyString -> cat !! p = Some prod -> n <= product_stock prod ->
  1 <= quantity item + n ->
  exists c' item',
    snd (postAdd u (Some p) (Some n) cat db) !! u = Some c'
    /\ itemOf p c' = Some item'
    /\ price item' = price item
    /\ product <$> items c' = product <$> items c.
Proof.
  intros Hdb Hc Hitem Hp Hcat Hstock Hq.
  destruct (postAdd_present u p n cat db c item prod Hdb Hc Hitem Hp Hcat Hstock)
    as (before & after & Hl & Hb & Hpi & Hok & _).
  rewrite (Hok Hq). cbn [snd]. rewrite lookup_insert_eq.
  eexists _, (merged n item). split; [done|]. split; [|split].
  - unfold itemOf; simpl. by apply find_around.
  - done.
  - simpl. by rewrite Hl, !fmap_app, !fmap_cons.
Qed.

(** C4, as amended.  When the stored cart of the user holds [p] with
    quantity [q], [POST /add] compares the stock with the requested [n]
    alone: if [n <= stock] and [1 <= q + n] the request succeeds and the
    item has quantity [min(q + n, 100)], whatever the stock is compared
    with [q + n]; a cart that held only this item has [totalItems]
    [min(q + n, 100)].  If [q + n < 1] the save is rejected by the
    schema's minimum and the collection is unchanged. *)
Theorem postAdd_checks_requested_quantity_only (u : UserId) (p : ProductId) (n : Z)
    (cat : Catalog) (db : Store) (c : Cart) (item : CartItem) (prod : Product) :
  consistent db -> db !! u = Some c -> itemOf p c = Some item ->
  p <> EmptyString -> cat !! p = Some prod -> n <= product_stock prod ->
  (1 <= quantity item + n ->
     exists c',
       postAdd u (Some p) (Some n) cat db
       = (ok (Some "Item added to cart") (Some (populate cat c')), <[u := c']> db)
       /\ itemOf p c' = Some (setQuantity (Z.min (quantity item + n) 100) item)
       /\ (items c = [item] ->
           items c' = [setQuantity (Z.min (quantity item + n) 100) item]
           /\ totalItems c' = Z.min (quantity item + n) 100))
  /\ (quantity item + n < 1 ->
      exists i,
        postAdd u (Some p) (Some n) cat db
        = (caught "Error adding item to cart" (ValidationError [belowMinimum i]), db)).
Proof.
  intros Hdb Hc Hitem Hp Hcat Hstock.
  destruct (postAdd_present u p n cat db c item prod Hdb Hc Hitem Hp Hcat Hstock)
    as (before & after & Hl & Hb & Hpi & Hok & Hbad).
  split.
  - intros Hq. eexists. split; [by apply Hok|]. split.
    + unfold itemOf; simpl. rewrite merged_eq. by apply find_around.
    + intros Hone. rewrite Hone in Hl.
      destruct before as [|x before]; [|by destruct before].
      injection Hl as <-. simpl. rewrite merged_eq. split; [done|].
      unfold sumQuantity; simpl. lia.
  - intros Hq. exists (length before). by apply Hbad.
Qed.

Lemma postAdd_checks_requested_quantity_only_witness :
  (1 <= 4 + 3 ->
     exists c',
       postAdd "alice" (Some "mug") (Some 3) mugCatalog fourMugsStore
       = (ok (Some "Item added to cart") (Some (populate mugCatalog c')),
          <["alice" := c']> fourMugsStore)
       /\ itemOf "mug" c'
          = Some (setQuantity (Z.min (4 + 3) 100)
                    {| product := "mug"; quantity := 4; price := 999 # 100 |})
       /\ (items fourMugs = [{| product := "mug"; quantity := 4; price := 999 # 100 |}] ->
           items c' = [setQuantity (Z.min (4 + 3) 100)
                         {| product := "mug"; quantity := 4; price := 999 # 100 |}]
           /\ totalItems c' = Z.min (4 + 3) 100))
  /\ (4 + 3 < 1 ->
      exists i,
        postAdd "alice" (Some "mug") (Some 3) mugCatalog fourMugsStore
        = (caught "Error adding item to cart" (ValidationError [belowMinimum i]),
           fourMugsStore)).
Proof.
  apply (postAdd_checks_requested_quantity_only "alice" "mug" 3 mugCatalog fourMugsStore
           fourMugs {| product := "mug"; quantity := 4; price := 999 # 100 |}
           {| product_price := 1099 # 100; product_stock := 10 |}).
  - exact fourMugsStore_consistent.
  - reflexivity.
  - reflexivity.
  - discriminate.
  - reflexivity.
  - simpl; lia.
Defined.

(** C4, as stated, fails: with 4 in the cart, 10 in stock and a requested
    quantity of -10 the stock check passes and the request does not
    succeed. *)
Lemma postAdd_negative_quantity_not_merged :
  itemOf "mug" fourMugs = Some {| product := "mug"; quantity := 4; price := 999 # 100 |}
  /\ product_stock <$> mugCatalog !! "mug" = Some 10
  /\ -10 <= 10
  /\ success (fst (postAdd "alice" (Some "mug") (Some (-10)) mugCatalog fourMugsStore))
     = false
  /\ ~ exists c' item',
        snd (postAdd "alice" (Some "mug") (Some (-10)) mugCatalog fourMugsStore)
          !! "alice" = Some c'
        /\ itemOf "mug" c' = Some item'
        /\ quantity item' = Z.min (4 + -10) 100.
Proof.
  split; [reflexivity|]. split; [reflexivity|]. split; [lia|].
  split; [vm_compute; reflexivity|].
  intros (c' & item' & Hc & Hi & Hq). vm_compute in Hc. injection Hc as <-.
  vm_compute in Hi. injection Hi as <-. simpl in Hq. lia.
Qed.

Example postAdd_minus_ten :
  postAdd "alice" (Some "mug") (Some (-10)) mugCatalog fourMugsStore
  = (caught "Error adding item to cart" (ValidationError [belowMinimum 0]),
     fourMugsStore).
Proof. vm_compute. reflexivity. Qed.

(** The stock check passes although the merged quantity exceeds the stock. *)
Example postAdd_beyond_stock :
  let c' := {| user := "alice";
               items := [{| product := "mug"; quantity := 7; price := 999 # 100 |}];
               totalItems := 7; totalPrice := 6993 # 100 |} in
  postAdd "alice" (Some "mug") (Some 3) scarceCatalog fourMugsStore
  = (ok (Some "Item added to cart") (Some (populate scarceCatalog c')),
     <["alice" := c']> fourMugsStore).
Proof. vm_compute. reflexivity. Qed.



(** C7.  [DELETE /clear] on a stored cart stores and returns the cart
    with no items and both totals 0; the document stays in the
    collection, so the next [GET /] of that user answers 200 with this
    empty cart and changes nothing.  [GET /] for a user without a stored
    cart stores a new empty cart and answers 200 with it. *)
Theorem deleteClear_keeps_the_cart (u v : UserId) (cat : Catalog) (db : Store) (c : Cart) :
  db !! u = Some c -> user c = u -> db !! v = None ->
  let emptied := {| user := u; items := []; totalItems := 0; totalPrice := 0%Q |} in
  deleteClear u db = (ok (Some "Cart cleared") (Some (Plain emptied)), <[u := emptied]> db)
  /\ <[u := emptied]> db !! u = Some emptied
  /\ getCart (Some u) cat (<[u := emptied]> db)
     = (ok None (Some (Expanded emptied [])), <[u := emptied]> db)
  /\ getCart (Some v) cat db
     = (ok None (Some (Plain {| user := v; items := []; totalItems := 0;
                               totalPrice := 0%Q |})),
        <[v := {| user := v; items := []; totalItems := 0; totalPrice := 0%Q |}]> db).
Proof.
  intros Hc Hu Hv emptied. split; [|split; [|split]].
  - unfold deleteClear. rewrite Hc. unfold clearCart, save; simpl.
    unfold preSave, emptied; simpl. by rewrite Hu.
  - apply lookup_insert_eq.
  - unfold getCart. by rewrite lookup_insert_eq.
  - unfold getCart. by rewrite Hv.
Qed.

Lemma deleteClear_keeps_the_cart_witness :
  let emptied := {| user := "alice"; items := []; totalItems := 0; totalPrice := 0%Q |} in
  items mugCart <> []
  /\ deleteClear "alice" mugStore
     = (ok (Some "Cart cleared") (Some (Plain emptied)), <["alice" := emptied]> mugStore)
  /\ <["alice" := emptied]> mugStore !! "alice" = Some emptied
  /\ getCart (Some "alice") mugCatalog (<["alice" := emptied]> mugStore)
     = (ok None (Some (Expanded emptied [])), <["alice" := emptied]> mugStore)
  /\ getCart (Some "bob") mugCatalog mugStore
     = (ok None (Some (Plain {| user := "bob"; items := []; totalItems := 0;
                               totalPrice := 0%Q |})),
        <["bob" := {| user := "bob"; items := []; totalItems := 0;
                      totalPrice := 0%Q |}]> mugStore).
Proof.
  intros emptied. split; [discriminate|].
  apply (deleteClear_keeps_the_cart "alice" "bob" mugCatalog mugStore mugCart);
    reflexivity.
Defined.

(** C10, as amended.  [POST /add] has no lower bound on the quantity:
    for [n <= 0] the stock check passes, since the stock is not
    negative, and for a product that the cart holds with quantity [q],
    [addItem] adds [n] to [q].  If [1 <= q + n] the item is stored with
    quantity [q + n]; if [q + n < 1] the save is rejected by the schema's
    "Quantity must be at least 1", the answer is 500 and the collection
    is unchanged. *)
Theorem postAdd_nonpositive_quantity (u : UserId) (p : ProductId) (n : Z)
    (cat : Catalog) (db : Store) (c : Cart) (item : CartItem) (prod : Product) :
  consistent db -> db !! u = Some c -> itemOf p c = Some item ->
  p <> EmptyString -> cat !! p = Some prod -> 0 <= product_stock prod -> n <= 0 ->
  (product_stock prod <? n) = false
  /\ (1 <= quantity item + n ->
      exists c',
        postAdd u (Some p) (Some n) cat db
        = (ok (Some "Item added to cart") (Some (populate cat c')), <[u := c']> db)
        /\ itemOf p c' = Some (setQuantity (quantity item + n) item))
  /\ (quantity item + n < 1 ->
      exists i,
        postAdd u (Some p) (Some n) cat db
        = (caught "Error adding item to cart" (ValidationError [belowMinimum i]), db)).
Proof.
  intros Hdb Hc Hitem Hp Hcat Hstock Hn.
  assert (n <= product_stock prod) as Hle by lia.
  destruct (postAdd_present u p n cat db c item prod Hdb Hc Hitem Hp Hcat Hle)
    as (before & after & Hl & Hb & Hpi & Hok & Hbad).
  assert (quantity item <= 100) as Hq100.
  { destruct (Hdb u c Hc) as (_ & Hvalid & _).
    apply find_sameProduct_Some in Hitem as [Hin _].
    rewrite Forall_forall in Hvalid. destruct (Hvalid item Hin) as [? _]. lia. }
  split; [by apply Z.ltb_ge|]. split.
  - intros Hq. eexists. split; [by apply Hok|].
    unfold itemOf; simpl. rewrite merged_eq.
    replace (Z.min (quantity item + n) 100) with (quantity item + n) by lia.
    by apply find_around.
  - intros Hq. exists (length before). by apply Hbad.
Qed.

Lemma postAdd_nonpositive_quantity_witness :
  (product_stock {| product_price := 1099 # 100; product_stock := 10 |} <? -3) = false
  /\ (1 <= 4 + -3 ->
      exists c',
        postAdd "alice" (Some "mug") (Some (-3)) mugCatalog fourMugsStore
        = (ok (Some "Item added to cart") (Some (populate mugCatalog c')),
           <["alice" := c']> fourMugsStore)
        /\ itemOf "mug" c'
           = Some (setQuantity (4 + -3)
                     {| product := "mug"; quantity := 4; price := 999 # 100 |}))
  /\ (4 + -3 < 1 ->
      exists i,
        postAdd "alice" (Some "mug") (Some (-3)) mugCatalog fourMugsStore
        = (caught "Error adding item to cart" (ValidationError [belowMinimum i]),
           fourMugsStore)).
Proof.
  apply (postAdd_nonpositive_quantity "alice" "mug" (-3) mugCatalog fourMugsStore
           fourMugs {| product := "mug"; quantity := 4; price := 999 # 100 |}
           {| product_price := 1099 # 100; product_stock := 10 |}).
  - exact fourMugsStore_consistent.
  - reflexivity.
  - reflexivity.
  - discriminate.
  - reflexivity.
  - simpl; lia.
  - lia.
Defined.

(** C10, as stated, fails: with 4 in the cart, [POST /add] with quantity
    -10 does not decrease the stored quantity; the request fails in
    [save] and the stored item keeps its quantity. *)
Lemma postAdd_negative_quantity_not_decreased :
  itemOf "mug" fourMugs = Some {| product := "mug"; quantity := 4; price := 999 # 100 |}
  /\ status (fst (postAdd "alice" (Some "mug") (Some (-10)) mugCatalog fourMugsStore))
     = 500
  /\ ~ exists c' item',
        snd (postAdd "alice" (Some "mug") (Some (-10)) mugCatalog fourMugsStore)
          !! "alice" = Some c'
        /\ itemOf "mug" c' = Some item'
        /\ quantity item' < 4.
Proof.
  split; [reflexivity|]. split; [vm_compute; reflexivity|].
  intros (c' & item' & Hc & Hi & Hq). vm_compute in Hc. injection Hc as <-.
  vm_compute in Hi. injection Hi as <-. simpl in Hq. lia.
Qed.

(** ** Further properties of the handlers *)

(** X1.  A request that is not answered with [success: true] leaves the
    collection exactly as it was: no handler writes and then fails. *)
Theorem failed_request_changes_nothing (cat : Catalog) (r : Request) (db : Store) :
  success (fst (handle cat r db)) = false -> snd (handle cat r db) = db.
Proof.
  destruct r as [[u|]|u bp bq|u p [q|]|u p|u]; cbn [handle]; try done.
  - unfold getCart. destruct (db !! u); [done|].
    by rewrite save_valid by constructor.
  - unfold postAdd. destruct (String.eqb _ EmptyString); [done|].
    destruct (cat !! _) as [prod|]; [|done].
    destruct (_ <? _); [done|].
    destruct (method_result (AddItem (default EmptyString bp) (default 1 bq)
                (product_price prod)) (default (newCart u) (db !! u)) db)
      as [[e E]|(c' & E & _)]; cbn [call] in E; by rewrite E.
  - unfold putUpdate. destruct (q <? 0); [done|].
    destruct (cat !! p) as [prod|]; [|done].
    destruct (_ <? _); [done|].
    destruct (db !! u) as [cart|]; [|done].
    destruct (method_result (UpdateItemQuantity p q) cart db)
      as [[e E]|(c' & E & _)]; cbn [call] in E; by rewrite E.
  - unfold deleteRemove. destruct (db !! u) as [cart|]; [|done].
    destruct (method_result (RemoveItem p) cart db)
      as [[e E]|(c' & E & _)]; cbn [call] in E; by rewrite E.
  - unfold deleteClear. destruct (db !! u) as [cart|]; [|done].
    destruct (method_result ClearCart cart db)
      as [[e E]|(c' & E & _)]; cbn [call] in E; by rewrite E.
Qed.

Lemma failed_request_changes_nothing_witness :
  snd (handle mugCatalog (PostAdd "alice" (Some "mug") (Some (-10))) fourMugsStore)
  = fourMugsStore.
Proof.
  apply (failed_request_changes_nothing mugCatalog
           (PostAdd "alice" (Some "mug") (Some (-10))) fourMugsStore).
  vm_compute. reflexivity.
Defined.

(** X2.  Every answer has status 200, 400, 401, 404 or 500; [success] is
    true exactly for 200, the caught error is reported exactly for 500,
    and 401 is the answer exactly when the request carries no user. *)
Theorem response_statuses (cat : Catalog) (r : Request) (db : Store) :
  let resp := fst (handle cat r db) in
  (status resp = 200 \/ status resp = 400 \/ status resp = 401
   \/ status resp = 404 \/ status resp = 500)
  /\ (success resp = true <-> status resp = 200)
  /\ (is_Some (error resp) <-> status resp = 500)
  /\ (status resp = 401 <-> requester r = None).
Proof.
  destruct (handle_response_shape cat r db)
    as [(msg & -> & ->)|[(code & msg & Hcode & -> & u & ->)
       |[(msg & e & -> & u & ->)|(msg & d & -> & u & ->)]]]; cbn.
  all: repeat split; intros; try done; try lia;
    match goal with H : is_Some None |- _ => by destruct H end.
Qed.

(** X3.  A request touches the cart of its own user only: in a
    consistent collection the cart of every other user is after the
    request what it was before. *)
Theorem other_carts_untouched (cat : Catalog) (r : Request) (db : Store) (v : UserId) :
  consistent db -> requester r <> Some v ->
  snd (handle cat r db) !! v = db !! v.
Proof.
  intros Hdb Hv.
  destruct (handle_step_requester cat r db) as [->|(u & m & Hu & ->)]; [done|].
  apply step_other; [done|]. intros ->. by rewrite Hu in Hv.
Qed.

Lemma other_carts_untouched_witness :
  snd (handle mugCatalog (DeleteClear "alice") (<["bob" := newCart "bob"]> mugStore))
    !! "bob"
  = <["bob" := newCart "bob"]> mugStore !! "bob".
Proof.
  apply (other_carts_untouched mugCatalog (DeleteClear "alice")
           (<["bob" := newCart "bob"]> mugStore) "bob").
  - apply consistent_insert.
    + split; [reflexivity|]. split; [constructor | split; reflexivity].
    + intros u c. unfold mugStore. rewrite lookup_singleton. case_decide; [|done].
      intros [= <-]. subst u. split; [reflexivity|]. split; [|split; reflexivity].
      repeat constructor; simpl; lia || discriminate.
  - discriminate.
Defined.

(** X4.  No sequence of requests removes a cart from the collection: a
    user who has a stored cart has one after every later request. *)
Theorem carts_are_never_deleted (rs : list (Catalog * Request)) (db : Store) (v : UserId) :
  is_Some (db !! v) -> is_Some (serve rs db !! v).
Proof.
  revert db; induction rs as [|[cat r] rs IH]; intros db Hv; [done|].
  cbn [serve fold_left fst snd]. apply IH.
  destruct (handle_step cat r db) as [->|(u & m & ->)]; [done|].
  by apply step_keeps.
Qed.

Lemma carts_are_never_deleted_witness :
  is_Some (serve aliceRequests mugStore !! "alice").
Proof.
  apply (carts_are_never_deleted aliceRequests mugStore "alice").
  exists mugCart. reflexivity.
Defined.

(** X5.  The cart in a successful answer is the cart that is stored for
    the requesting user when the handler returns. *)
Theorem answered_cart_is_stored (cat : Catalog) (r : Request) (db : Store) (u : UserId) :
  consistent db -> requester r = Some u ->
  success (fst (handle cat r db)) = true ->
  exists v, data (fst (handle cat r db)) = Some v
            /\ snd (handle cat r db) !! u = Some (viewCart v).
Proof.
  intros Hdb Hu.
  assert (forall (m : Call) (cart : Cart) msg,
            user cart = u ->
            let res := (let (r0, db') := call m cart db in
                        match r0 with
                        | inr cart' => (ok msg (populate cat <$> findById cart' db'), db')
                        | inl e => (caught "Error" e, db')
                        end) in
            success (fst res) = true ->
            exists v, data (fst res) = Some v /\ snd res !! u = Some (viewCart v))
    as Hcall.
  { intros m cart msg Hcart.
    destruct (method_result m cart db) as [[e ->]|(c' & -> & Hc')]; cbn; [done|].
    intros _. unfold findById. rewrite Hc', Hcart, lookup_insert_eq. cbn. eauto. }
  destruct r as [[w|]|w bp bq|w p [q|]|w p|w]; cbn [requester] in Hu; try done;
    injection Hu as ->; cbn [handle].
  - unfold getCart. destruct (db !! u) as [cart|] eqn:E.
    + intros _. cbn. eauto.
    + rewrite save_valid by constructor. intros _. cbn.
      rewrite lookup_insert_eq. eauto.
  - unfold postAdd. destruct (String.eqb (default EmptyString bp) EmptyString); [done|].
    destruct (cat !! default EmptyString bp) as [prod|]; [|done].
    destruct (product_stock prod <? default 1 bq); [done|].
    pose proof (Hcall (AddItem (default EmptyString bp) (default 1 bq) (product_price prod))
                  (default (newCart u) (db !! u)) (Some "Item added to cart")
                  (loaded_user db u Hdb)) as H.
    cbn [call] in H.
    destruct (addItem _ _ _ _ db) as [[e|c'] db']; [done | exact H].
  - unfold putUpdate. destruct (q <? 0); [done|].
    destruct (cat !! p) as [prod|]; [|done].
    destruct (product_stock prod <? q); [done|].
    destruct (db !! u) as [cart|] eqn:E; [|done].
    pose proof (Hcall (UpdateItemQuantity p q) cart (Some "Cart updated")
                  (proj1 (Hdb u cart E))) as H.
    cbn [call] in H.
    destruct (updateItemQuantity _ _ _ db) as [[e|c'] db']; [done | exact H].
  - unfold deleteRemove. destruct (db !! u) as [cart|] eqn:E; [|done].
    pose proof (Hcall (RemoveItem p) cart (Some "Item removed from cart")
                  (proj1 (Hdb u cart E))) as H.
    cbn [call] in H.
    destruct (removeItem _ _ db) as [[e|c'] db']; [done | exact H].
  - unfold deleteClear. destruct (db !! u) as [cart|] eqn:E; [|done].
    destruct (method_result ClearCart cart db) as [[e E']|(c' & E' & Hc')];
      cbn [call] in E'; rewrite E'; cbn; [done|].
    intros _. rewrite <- (proj1 (Hdb u cart E)), lookup_insert_eq. eauto.
Qed.

Lemma answered_cart_is_stored_witness :
  exists v,
    data (fst (handle mugCatalog (PostAdd "alice" (Some "mug") (Some 3)) fourMugsStore))
    = Some v
    /\ snd (handle mugCatalog (PostAdd "alice" (Some "mug") (Some 3)) fourMugsStore)
         !! "alice" = Some (viewCart v).
Proof.
  apply (answered_cart_is_stored mugCatalog (PostAdd "alice" (Some "mug") (Some 3))
           fourMugsStore "alice").
  - exact fourMugsStore_consistent.
  - reflexivity.
  - vm_compute. reflexivity.
Defined.

(** ** Further properties of the stored carts *)

(** X6.  After any sequence of requests every stored cart has between 1
    and 100 of each item at a non-negative price, so [totalItems] lies
    between the number of items and 100 times that number, [totalPrice]
    is not negative, and [totalItems] is 0 exactly for a cart without
    items. *)
Theorem served_cart_bounds (rs : list (Catalog * Request)) (u : UserId) (c : Cart) :
  serve rs ∅ !! u = Some c ->
  Forall validItem (items c)
  /\ Z.of_nat (length (items c)) <= totalItems c <= 100 * Z.of_nat (length (items c))
  /\ (0 <= totalPrice c)%Q
  /\ (totalItems c = 0 <-> items c = []).
Proof.
  intros Hc. destruct (serve_consistent rs ∅ consistent_empty u c Hc)
    as (_ & Hvalid & Hi & Hp).
  pose proof (valid_quantity_bounds _ Hvalid) as Hb.
  rewrite Hi, sumQuantity_spec. split; [done|]. split; [done|]. split.
  - rewrite Hp, sumPrice_spec. by apply valid_price_nonneg.
  - split.
    + revert Hb. destruct (items c) as [|x l]; [done|].
      cbn [length]. intros Hb H0. lia.
    + by intros ->.
Qed.

Lemma served_cart_bounds_witness :
  exists c,
    serve aliceRequests ∅ !! "alice" = Some c
    /\ Forall validItem (items c)
    /\ Z.of_nat (length (items c)) <= totalItems c <= 100 * Z.of_nat (length (items c))
    /\ (0 <= totalPrice c)%Q
    /\ (totalItems c = 0 <-> items c = []).
Proof.
  eexists. split; [vm_compute; reflexivity|].
  apply (served_cart_bounds aliceRequests "alice"). vm_compute; reflexivity.
Defined.



(** ** How the methods compose *)







(** X11.  An item that is at 100 stays as it is when more of it is
    added: [addItem] with a quantity that is not negative succeeds and
    returns the cart unchanged. *)
Theorem addItem_at_the_maximum (p : ProductId) (n : Z) (unitPrice : Q)
    (this : Cart) (db : Store) (item : CartItem) :
  itemOf p this = Some item -> quantity item = 100 ->
  Forall validItem (items this) -> totalsComputed this -> 0 <= n ->
  addItem p n unitPrice this db = (inr this, <[user this := this]> db).
Proof.
  intros Hitem Hq Hvalid Htotals Hn.
  destruct (addItem_present p n unitPrice this db item Hitem)
    as (before & after & Hl & _ & _ & ->).
  assert (merged n item = item) as ->.
  { rewrite merged_eq. destruct item as [ip iq ipr]; simpl in *. subst iq.
    unfold setQuantity; simpl. f_equal. lia. }
  rewrite <- Hl, setItems_items, save_valid by done. by rewrite preSave_id.
Qed.

Lemma addItem_at_the_maximum_witness :
  addItem "mug" 5 (1099 # 100) fullMugs ∅ = (inr fullMugs, <[user fullMugs := fullMugs]> ∅).
Proof.
  apply (addItem_at_the_maximum "mug" 5 (1099 # 100) fullMugs ∅
           {| product := "mug"; quantity := 100; price := 999 # 100 |}).
  - reflexivity.
  - reflexivity.
  - repeat constructor; simpl; lia || discriminate.
  - split; reflexivity.
  - lia.
Defined.

(** X12.  [updateItemQuantity] overwrites: on a valid cart that holds
    the product, an update to [q1 > 0] followed by an update to
    [q2 > 0] leaves the document and the collection that the update to
    [q2] alone leaves; in particular the same update twice is the update
    once. *)
Theorem updateItemQuantity_last_wins (p : ProductId) (q1 q2 : Z)
    (this : Cart) (db : Store) (item : CartItem) :
  Forall validItem (items this) -> itemOf p this = Some item ->
  0 < q1 -> 0 < q2 ->
  exists c1 c2,
    updateItemQuantity p q1 this db = (inr c1, <[user this := c1]> db)
    /\ updateItemQuantity p q2 c1 (<[user this := c1]> db)
       = (inr c2, <[user this := c2]> db)
    /\ updateItemQuantity p q2 this db = (inr c2, <[user this := c2]> db).
Proof.
  intros Hvalid Hitem Hq1 Hq2.
  destruct (updateItemQuantity_present p q1 this db item Hvalid Hitem Hq1)
    as (before & after & Hl & Hb & Hi & E1).
  destruct (updateItemQuantity_present p q2 this db item Hvalid Hitem Hq2)
    as (before2 & after2 & Hl2 & Hb2 & Hi2 & E2).
  assert (before2 = before /\ after2 = after) as [-> ->].
  { rewrite Hl in Hl2. clear -Hl2 Hb Hb2 Hi.
    apply sameProduct_true in Hi.
    revert before2 Hl2 Hb2. induction Hb as [|x before Hx Hb IH]; intros before2 Hl2 Hb2.
    - destruct Hb2 as [|y before2 Hy Hb2]; simpl in Hl2.
      + by injection Hl2 as <-.
      + injection Hl2 as <- _. congruence.
    - destruct Hb2 as [|y before2 Hy Hb2]; simpl in Hl2.
      + injection Hl2 as -> _. congruence.
      + injection Hl2 as <- Hl2. destruct (IH before2 Hl2 Hb2) as [-> ->]. done. }
  eexists _, _. split; [exact E1|]. split; [|exact E2].
  unfold updateItemQuantity. cbn [items preSave setItems].
  rewrite find_around by done. destruct (Z.leb_spec q2 0); [lia|].
  rewrite modifyFound_split; [|done | by apply sameProduct_true].
  rewrite save_valid.
  - cbn [user preSave setItems]. by rewrite insert_insert_eq.
  - cbn [items setItems].
    rewrite Hl in Hvalid. apply Forall_app in Hvalid as [Hvb Hva].
    apply Forall_cons in Hva as [Hvi Hva].
    apply Forall_app. split; [done|]. apply Forall_cons. split; [|done].
    apply validItem_setQuantity; [lia|]. by apply validItem_setQuantity; [lia|].
Qed.

Lemma updateItemQuantity_last_wins_witness :
  exists c1 c2,
    updateItemQuantity "mug" 9 mugCart mugStore = (inr c1, <[user mugCart := c1]> mugStore)
    /\ updateItemQuantity "mug" 150 c1 (<[user mugCart := c1]> mugStore)
       = (inr c2, <[user mugCart := c2]> mugStore)
    /\ updateItemQuantity "mug" 150 mugCart mugStore
       = (inr c2, <[user mugCart := c2]> mugStore).
Proof.
  apply (updateItemQuantity_last_wins "mug" 9 150 mugCart mugStore
           {| product := "mug"; quantity := 4; price := 999 # 100 |}).
  - repeat constructor; simpl; lia || discriminate.
  - reflexivity.
  - lia.
  - lia.
Defined.

(** ** Further properties of [PUT /update], [DELETE /remove] and [GET /] *)

(** X13.  [PUT /update] with quantity 0 for a product that is in the
    catalog and in the stored cart removes the item: it leaves the
    collection that [DELETE /remove] leaves, with the item gone and
    [totalItems] lower by the quantity the item had. *)
Theorem putUpdate_zero_is_remove (u : UserId) (p : ProductId) (cat : Catalog)
    (db : Store) (c : Cart) (item : CartItem) (prod : Product) :
  consistent db -> db !! u = Some c -> uniqueProducts (items c) ->
  itemOf p c = Some item -> cat !! p = Some prod -> 0 <= product_stock prod ->
  exists c',
    putUpdate u p (Some 0) cat db
    = (ok (Some "Cart updated") (Some (populate cat c')), <[u := c']> db)
    /\ deleteRemove u p cat db
       = (ok (Some "Item removed from cart") (Some (populate cat c')), <[u := c']> db)
    /\ itemOf p c' = None
    /\ totalItems c' = totalItems c - quantity item.
Proof.
  intros Hdb Hc Hunique Hitem Hcat Hstock.
  destruct (Hdb u c Hc) as (Hu & Hvalid & Hti & _).
  destruct (removeItem_present p c db item Hvalid Hunique Hitem)
    as (before & after & Hl & Hf & _ & Hsi & _).
  exists (preSave (setItems (List.filter (otherProduct p) (items c)) c)).
  split; [|split; [by apply deleteRemove_stored|split]].
  - rewrite (putUpdate_accepted u p 0 cat db prod c) by (done || lia).
    unfold updateItemQuantity. unfold itemOf in Hitem. rewrite Hitem. cbn [Z.leb Z.compare].
    rewrite save_valid by by apply filter_Forall.
    unfold findById. cbn [user preSave setItems]. rewrite Hu, lookup_insert_eq. done.
  - unfold itemOf. cbn [items preSave setItems]. apply find_filter_otherProduct.
  - cbn [totalItems preSave setItems items].
    by rewrite Hf, sumQuantity_spec, Hsi, Hti, sumQuantity_spec.
Qed.

Lemma putUpdate_zero_is_remove_witness :
  exists c',
    putUpdate "alice" "mug" (Some 0) mugCatalog mugStore
    = (ok (Some "Cart updated") (Some (populate mugCatalog c')), <["alice" := c']> mugStore)
    /\ deleteRemove "alice" "mug" mugCatalog mugStore
       = (ok (Some "Item removed from cart") (Some (populate mugCatalog c')),
          <["alice" := c']> mugStore)
    /\ itemOf "mug" c' = None
    /\ totalItems c' = totalItems mugCart - 4.
Proof.
  apply (putUpdate_zero_is_remove "alice" "mug" mugCatalog mugStore mugCart
           {| product := "mug"; quantity := 4; price := 999 # 100 |}
           {| product_price := 1099 # 100; product_stock := 10 |}).
  - intros u c. unfold mugStore. rewrite lookup_singleton. case_decide; [|done].
    intros [= <-]. subst u. split; [reflexivity|]. split; [|split; reflexivity].
    repeat constructor; simpl; lia || discriminate.
  - reflexivity.
  - unfold uniqueProducts. refine (bool_decide_unpack (NoDup _) _). vm_compute. exact I.
  - reflexivity.
  - reflexivity.
  - simpl; lia.
Defined.

(** X14.  A successful [PUT /update] with a positive quantity [q] stores
    [min(q, 100)] for the item, at the price it had, and that quantity
    does not exceed the stock of the product. *)
Theorem putUpdate_within_stock (u : UserId) (p : ProductId) (q : Z) (cat : Catalog)
    (db : Store) (c : Cart) (item : CartItem) (prod : Product) :
  consistent db -> db !! u = Some c -> itemOf p c = Some item ->
  cat !! p = Some prod -> 0 < q <= product_stock prod ->
  exists c' item',
    putUpdate u p (Some q) cat db
    = (ok (Some "Cart updated") (Some (populate cat c')), <[u := c']> db)
    /\ itemOf p c' = Some item'
    /\ quantity item' = Z.min q 100
    /\ quantity item' <= product_stock prod
    /\ price item' = price item.
Proof.
  intros Hdb Hc Hitem Hcat [Hq Hstock].
  destruct (Hdb u c Hc) as (Hu & Hvalid & _).
  destruct (updateItemQuantity_present p q c db item Hvalid Hitem Hq)
    as (before & after & Hl & Hb & Hi & E).
  eexists _, (setQuantity (Z.min q 100) item).
  rewrite (putUpdate_accepted u p q cat db prod c) by (done || lia).
  rewrite E. unfold findById. cbn [user preSave setItems].
  rewrite Hu, lookup_insert_eq. split; [done|]. split.
  - unfold itemOf. cbn [items preSave setItems]. by apply find_around.
  - cbn [quantity price setQuantity]. split; [done|]. split; [lia | done].
Qed.

Lemma putUpdate_within_stock_witness :
  exists c' item',
    putUpdate "alice" "mug" (Some 9) mugCatalog fourMugsStore
    = (ok (Some "Cart updated") (Some (populate mugCatalog c')),
       <["alice" := c']> fourMugsStore)
    /\ itemOf "mug" c' = Some item'
    /\ quantity item' = Z.min 9 100
    /\ quantity item' <= 10
    /\ price item' = 999 # 100.
Proof.
  apply (putUpdate_within_stock "alice" "mug" 9 mugCatalog fourMugsStore fourMugs
           {| product := "mug"; quantity := 4; price := 999 # 100 |}
           {| product_price := 1099 # 100; product_stock := 10 |}).
  - exact fourMugsStore_consistent.
  - reflexivity.
  - reflexivity.
  - reflexivity.
  - simpl; lia.
Defined.

(** X15.  [PUT /update] for a product that is in the catalog but not in
    the stored cart is answered 500 with the method's "Item not found in
    cart", for quantity 0 as for any quantity up to the stock, and the
    collection is unchanged. *)
Theorem putUpdate_item_not_in_cart (u : UserId) (p : ProductId) (q : Z) (cat : Catalog)
    (db : Store) (c : Cart) (prod : Product) :
  db !! u = Some c -> itemOf p c = None ->
  cat !! p = Some prod -> 0 <= q <= product_stock prod ->
  putUpdate u p (Some q) cat db
  = (caught "Error updating cart" (PlainError "Item not found in cart"), db).
Proof.
  intros Hc Habsent Hcat [Hq Hstock].
  rewrite (putUpdate_accepted u p q cat db prod c) by done.
  unfold updateItemQuantity. unfold itemOf in Habsent. by rewrite Habsent.
Qed.

Lemma putUpdate_item_not_in_cart_witness :
  putUpdate "alice" "pen" (Some 0) mugCatalog fourMugsStore
  = (caught "Error updating cart" (PlainError "Item not found in cart"), fourMugsStore).
Proof.
  apply (putUpdate_item_not_in_cart "alice" "pen" 0 mugCatalog fourMugsStore fourMugs
           {| product_price := 1 # 2; product_stock := 2 |}).
  - reflexivity.
  - reflexivity.
  - reflexivity.
  - simpl; lia.
Defined.

(** X16.  Once a product has left the catalog, its item cannot be
    changed through [PUT /update]: every quantity, 0 included, is
    answered 404 "Product not found" and nothing is written; [GET /]
    shows the item without a product; [DELETE /remove] still removes
    it. *)
Theorem item_of_a_deleted_product (u : UserId) (p : ProductId) (cat : Catalog)
    (db : Store) (c : Cart) (item : CartItem) :
  consistent db -> db !! u = Some c -> itemOf p c = Some item -> cat !! p = None ->
  (forall q, 0 <= q ->
     putUpdate u p (Some q) cat db = (failure 404 "Product not found", db))
  /\ (exists products,
       getCart (Some u) cat db = (ok None (Some (Expanded c products)), db)
       /\ None ∈ products)
  /\ (exists c',
       deleteRemove u p cat db
       = (ok (Some "Item removed from cart") (Some (populate cat c')), <[u := c']> db)
       /\ itemOf p c' = None).
Proof.
  intros Hdb Hc Hitem Hcat. split; [|split].
  - intros q Hq. unfold putUpdate. destruct (Z.ltb_spec q 0); [lia|]. by rewrite Hcat.
  - eexists. unfold getCart. rewrite Hc. split; [done|].
    apply find_sameProduct_Some in Hitem as [Hin Hp].
    apply list_elem_of_fmap. exists item. split; [by rewrite Hp, Hcat | done].
  - eexists. split; [by apply deleteRemove_stored|].
    unfold itemOf. cbn [items preSave setItems]. apply find_filter_otherProduct.
Qed.

Lemma item_of_a_deleted_product_witness :
  (forall q, 0 <= q ->
     putUpdate "alice" "pen" (Some q) scarceCatalog mugStore
     = (failure 404 "Product not found", mugStore))
  /\ (exists products,
       getCart (Some "alice") scarceCatalog mugStore
       = (ok None (Some (Expanded mugCart products)), mugStore)
       /\ None ∈ products)
  /\ (exists c',
       deleteRemove "alice" "pen" scarceCatalog mugStore
       = (ok (Some "Item removed from cart") (Some (populate scarceCatalog c')),
          <["alice" := c']> mugStore)
       /\ itemOf "pen" c' = None).
Proof.
  apply (item_of_a_deleted_product "alice" "pen" scarceCatalog mugStore mugCart
           {| product := "pen"; quantity := 1; price := 1 # 2 |}).
  - intros u c. unfold mugStore. rewrite lookup_singleton. case_decide; [|done].
    intros [= <-]. subst u. split; [reflexivity|]. split; [|split; reflexivity].
    repeat constructor; simpl; lia || discriminate.
  - reflexivity.
  - reflexivity.
  - reflexivity.
Defined.

(** X17.  [DELETE /remove] on a stored cart always succeeds, whether or
    not the cart holds the product, and is idempotent: the product is
    gone afterwards, and the same request again gives the same answer
    and the same collection. *)
Theorem deleteRemove_idempotent (u : UserId) (p : ProductId) (cat : Catalog)
    (db : Store) (c : Cart) :
  consistent db -> db !! u = Some c ->
  exists c',
    deleteRemove u p cat db
    = (ok (Some "Item removed from cart") (Some (populate cat c')), <[u := c']> db)
    /\ itemOf p c' = None
    /\ deleteRemove u p cat (<[u := c']> db)
       = (ok (Some "Item removed from cart") (Some (populate cat c')), <[u := c']> db).
Proof.
  intros Hdb Hc. destruct (Hdb u c Hc) as (Hu & Hvalid & _).
  set (c' := preSave (setItems (List.filter (otherProduct p) (items c)) c)).
  assert (storedCart u c') as Hc'.
  { split; [done|]. split; [by apply filter_Forall | by split]. }
  exists c'. split; [by apply deleteRemove_stored|]. split.
  - unfold itemOf. cbn [items preSave setItems c']. apply find_filter_otherProduct.
  - rewrite (deleteRemove_stored u p cat (<[u := c']> db) c');
      [|by apply consistent_insert | apply lookup_insert_eq].
    assert (preSave (setItems (List.filter (otherProduct p) (items c')) c') = c') as ->.
    { rewrite filter_otherProduct_id by apply filter_otherProduct_absent.
      rewrite setItems_items. apply preSave_id. by destruct Hc' as (_ & _ & ?). }
    by rewrite insert_insert_eq.
Qed.

Lemma deleteRemove_idempotent_witness :
  exists c',
    deleteRemove "alice" "mug" mugCatalog fourMugsStore
    = (ok (Some "Item removed from cart") (Some (populate mugCatalog c')),
       <["alice" := c']> fourMugsStore)
    /\ itemOf "mug" c' = None
    /\ deleteRemove "alice" "mug" mugCatalog (<["alice" := c']> fourMugsStore)
       = (ok (Some "Item removed from cart") (Some (populate mugCatalog c')),
          <["alice" := c']> fourMugsStore).
Proof.
  apply (deleteRemove_idempotent "alice" "mug" mugCatalog fourMugsStore fourMugs).
  - exact fourMugsStore_consistent.
  - reflexivity.
Defined.

(** X18.  [GET /] never changes a cart that is stored: every stored cart
    is stored unchanged afterwards.  It writes only the new empty cart
    of a user who had none, so the same request again changes nothing,
    and after it the requesting user has a cart. *)
Theorem getCart_only_creates (reqUser : option UserId) (cat : Catalog) (db : Store) :
  (forall v c, db !! v = Some c -> snd (getCart reqUser cat db) !! v = Some c)
  /\ snd (getCart reqUser cat (snd (getCart reqUser cat db)))
     = snd (getCart reqUser cat db)
  /\ (forall u, reqUser = Some u ->
        snd (getCart reqUser cat db) !! u
        = Some (default (newCart u) (db !! u))).
Proof.
  destruct reqUser as [u|]; [|by repeat split].
  unfold getCart. destruct (db !! u) as [cart|] eqn:E.
  - cbn [snd]. rewrite E. split; [done|]. split; [done|].
    intros ? [= <-]. by rewrite E.
  - rewrite save_valid by constructor. cbn [snd user preSave newCart].
    rewrite lookup_insert_eq. cbn [snd]. split; [|split; [done|]].
    + intros v c Hv. rewrite lookup_insert_ne; [done|]. intros ->. congruence.
    + intros ? [= <-]. by rewrite lookup_insert_eq, E.
Qed.

(** ** Further properties of [POST /add] and of the product model *)

(** X19.  [POST /add] of a product that the user's cart does not hold
    (the stored cart, or the new one of a user who has none): with a
    quantity from 1 to 100 within the stock, the item is appended after
    the items that were there and [totalItems] grows by the quantity;
    with a quantity below 1 or above 100 the save is rejected, the
    answer is 500 and nothing is written, so no cart is created for a
    user who had none. *)
Theorem postAdd_new_product (u : UserId) (p : ProductId) (n : Z) (cat : Catalog)
    (db : Store) (prod : Product) :
  consistent db -> itemOf p (default (newCart u) (db !! u)) = None ->
  p <> EmptyString -> cat !! p = Some prod ->
  n <= product_stock prod -> (0 <= product_price prod)%Q ->
  (1 <= n <= 100 ->
     exists c',
       postAdd u (Some p) (Some n) cat db
       = (ok (Some "Item added to cart") (Some (populate cat c')), <[u := c']> db)
       /\ items c' = items (default (newCart u) (db !! u)) ++
            [{| product := p; quantity := n; price := product_price prod |}]
       /\ totalItems c' = totalItems (default (newCart u) (db !! u)) + n)
  /\ (n < 1 \/ 100 < n ->
      exists e,
        postAdd u (Some p) (Some n) cat db = (caught "Error adding item to cart" e, db)).
Proof.
  intros Hdb Habsent Hp Hcat Hstock Hprice.
  rewrite (postAdd_accepted u p (Some n) cat db prod) by done.
  cbn [default from_option id].
  set (this := from_option id (newCart u) (db !! u)) in *.
  assert (user this = u) as Hu by by apply loaded_user.
  assert (Forall validItem (items this) /\ totalsComputed this) as [Hvalid [Hti _]].
  { unfold this. destruct (db !! u) as [c|] eqn:E; cbn.
    - by destruct (Hdb u c E) as (_ & ? & ?).
    - split; [constructor | by split]. }
  split.
  - intros Hn. rewrite addItem_absent by done.
    unfold findById. cbn [user preSave setItems]. rewrite Hu, lookup_insert_eq.
    eexists. split; [done|]. split; [done|].
    cbn [totalItems preSave setItems items].
    rewrite sumQuantity_spec, specTotalItems_app, Hti, sumQuantity_spec. simpl. lia.
  - intros Hn. unfold addItem. unfold itemOf in Habsent. rewrite Habsent.
    rewrite save_invalid; [by eexists|].
    cbn [items setItems]. intros Hall.
    apply Forall_app in Hall as [_ Hnew]. apply Forall_inv in Hnew.
    destruct Hnew as [Hq _]. simpl in Hq. lia.
Qed.

Lemma postAdd_new_product_witness :
  (1 <= 2 <= 100 ->
     exists c',
       postAdd "bob" (Some "mug") (Some 2) mugCatalog mugStore
       = (ok (Some "Item added to cart") (Some (populate mugCatalog c')),
          <["bob" := c']> mugStore)
       /\ items c' = items (default (newCart "bob") (mugStore !! "bob")) ++
            [{| product := "mug"; quantity := 2; price := 1099 # 100 |}]
       /\ totalItems c' = totalItems (default (newCart "bob") (mugStore !! "bob")) + 2)
  /\ (2 < 1 \/ 100 < 2 ->
      exists e,
        postAdd "bob" (Some "mug") (Some 2) mugCatalog mugStore
        = (caught "Error adding item to cart" e, mugStore)).
Proof.
  apply (postAdd_new_product "bob" "mug" 2 mugCatalog mugStore
           {| product_price := 1099 # 100; product_stock := 10 |}).
  - intros u c. unfold mugStore. rewrite lookup_singleton. case_decide; [|done].
    intros [= <-]. subst u. split; [reflexivity|]. split; [|split; reflexivity].
    repeat constructor; simpl; lia || discriminate.
  - reflexivity.
  - discriminate.
  - reflexivity.
  - simpl; lia.
  - discriminate.
Defined.

(** X20.  With a stock that is not negative, [stockStatus] is "Out of
    Stock" exactly for stock 0, "Low Stock" for 1 to 4 and "In Stock"
    from 5 on.  For a product that is out of stock, [POST /add] and
    [PUT /update] with a quantity of at least 1 are answered 400 "Only 0
    items available in stock" and write nothing. *)
Theorem out_of_stock_is_rejected (u : UserId) (p : ProductId) (n : Z) (cat : Catalog)
    (db : Store) (prod : Product) :
  cat !! p = Some prod -> 0 <= product_stock prod -> p <> EmptyString -> 1 <= n ->
  (stockStatus prod = "Out of Stock" <-> product_stock prod = 0)
  /\ (stockStatus prod = "Low Stock" <-> 1 <= product_stock prod <= 4)
  /\ (stockStatus prod = "In Stock" <-> 5 <= product_stock prod)
  /\ (stockStatus prod = "Out of Stock" ->
      postAdd u (Some p) (Some n) cat db
      = (failure 400 "Only 0 items available in stock", db)
      /\ putUpdate u p (Some n) cat db
         = (failure 400 "Only 0 items available in stock", db)).
Proof.
  intros Hcat Hstock Hp Hn.
  assert (stockStatus prod = "Out of Stock" <-> product_stock prod = 0) as Hout.
  { unfold stockStatus. destruct (Z.eqb_spec (product_stock prod) 0); [done|].
    destruct (Z.ltb_spec (product_stock prod) 5); split; (done || lia). }
  split; [done|]. split; [|split].
  - unfold stockStatus. destruct (Z.eqb_spec (product_stock prod) 0);
      [split; [done | lia]|].
    destruct (Z.ltb_spec (product_stock prod) 5); split; (done || lia).
  - unfold stockStatus. destruct (Z.eqb_spec (product_stock prod) 0);
      [split; [done | lia]|].
    destruct (Z.ltb_spec (product_stock prod) 5); split; (done || lia).
  - intros H0%Hout. split.
    + unfold postAdd. change (default EmptyString (Some p)) with p.
      apply String.eqb_neq in Hp. rewrite Hp, Hcat. cbn [default from_option id].
      destruct (Z.ltb_spec (product_stock prod) n); [|lia].
      unfold outOfStock. by rewrite H0.
    + unfold putUpdate. destruct (Z.ltb_spec n 0); [lia|]. rewrite Hcat.
      destruct (Z.ltb_spec (product_stock prod) n); [|lia].
      unfold outOfStock. by rewrite H0.
Qed.

Lemma out_of_stock_is_rejected_witness :
  (stockStatus {| product_price := 3 # 1; product_stock := 0 |} = "Out of Stock" <-> 0 = 0)
  /\ (stockStatus {| product_price := 3 # 1; product_stock := 0 |} = "Low Stock"
      <-> 1 <= 0 <= 4)
  /\ (stockStatus {| product_price := 3 # 1; product_stock := 0 |} = "In Stock" <-> 5 <= 0)
  /\ (stockStatus {| product_price := 3 # 1; product_stock := 0 |} = "Out of Stock" ->
      postAdd "alice" (Some "cup") (Some 1)
        {["cup" := {| product_price := 3 # 1; product_stock := 0 |}]} mugStore
      = (failure 400 "Only 0 items available in stock", mugStore)
      /\ putUpdate "alice" "cup" (Some 1)
           {["cup" := {| product_price := 3 # 1; product_stock := 0 |}]} mugStore
         = (failure 400 "Only 0 items available in stock", mugStore)).
Proof.
  apply (out_of_stock_is_rejected "alice" "cup" 1
           {["cup" := {| product_price := 3 # 1; product_stock := 0 |}]} mugStore
           {| product_price := 3 # 1; product_stock := 0 |}).
  - reflexivity.
  - simpl; lia.
  - discriminate.
  - lia.
Defined.

(** X21.  The [pre('save')] hook of a product puts the main image into
    an empty [images] list and does nothing else: a product with a main
    image has a non-empty list afterwards; a list that is not empty is
    left as it is, whether or not it holds the main image; without a
    main image nothing changes; the main image is never changed; and
    running the hook twice is running it once. *)
Theorem productPreSave_fills_empty_images (this : ProductImages) :
  (image this <> EmptyString -> images (productPreSave this) <> [])
  /\ (image this <> EmptyString -> images this = [] ->
      images (productPreSave this) = [image this])
  /\ (images this <> [] -> productPreSave this = this)
  /\ (image this = EmptyString -> productPreSave this = this)
  /\ image (productPreSave this) = image this
  /\ productPreSave (productPreSave this) = productPreSave this.
Proof.
  destruct this as [img imgs]. unfold productPreSave; cbn [image images].
  destruct (String.eqb_spec img EmptyString) as [->|Himg]; cbn [negb andb].
  - by repeat split.
  - destruct imgs as [|x imgs]; cbn [length Nat.eqb app].
    + repeat split; try done. cbn [image images].
      destruct (String.eqb_spec img EmptyString); done.
    + repeat split; try done. cbn [image images].
      destruct (String.eqb_spec img EmptyString); done.
Qed.



(** ** What the answers of [POST /add] and [PUT /update] imply *)

(** X23.  [POST /add] succeeds only for a product that is in the catalog
    and whose stock covers the requested quantity; afterwards the cart
    stored for the user holds that product, in a quantity from 1 to
    100.  It never stores an item for a product that the catalog does
    not have. *)
Theorem postAdd_success_requires (u : UserId) (bodyProductId : option ProductId)
    (bodyQuantity : option Z) (cat : Catalog) (db : Store) :
  consistent db ->
  success (fst (postAdd u bodyProductId bodyQuantity cat db)) = true ->
  exists p prod c' item,
    bodyProductId = Some p /\ p <> EmptyString
    /\ cat !! p = Some prod
    /\ default 1 bodyQuantity <= product_stock prod
    /\ snd (postAdd u bodyProductId bodyQuantity cat db) !! u = Some c'
    /\ itemOf p c' = Some item
    /\ 1 <= quantity item <= 100.
Proof.
  intros Hdb. unfold postAdd.
  destruct (String.eqb_spec (default EmptyString bodyProductId) EmptyString)
    as [|Hp]; [done|].
  destruct bodyProductId as [p|]; [|done]. cbn [default from_option id] in *.
  destruct (cat !! p) as [prod|] eqn:Hcat; [|done].
  destruct (Z.ltb_spec (product_stock prod) (from_option id 1 bodyQuantity)); [done|].
  destruct (addItem p _ _ _ db) as [[e|c'] db'] eqn:E; [done|]. intros _.
  pose proof (addItem_holds_product _ _ _ _ _ _ _ E) as (Hst & Hvalid & [item Hitem]).
  rewrite loaded_user in Hst by done. cbn [snd].
  exists p, prod, c', item. repeat split; try done.
  all: apply find_sameProduct_Some in Hitem as [Hin _];
    rewrite Forall_forall in Hvalid; destruct (Hvalid item Hin) as [? _]; lia.
Qed.

Lemma postAdd_success_requires_witness :
  exists p prod c' item,
    Some "mug" = Some p /\ p <> EmptyString
    /\ mugCatalog !! p = Some prod
    /\ default 1 (Some 3) <= product_stock prod
    /\ snd (postAdd "alice" (Some "mug") (Some 3) mugCatalog fourMugsStore) !! "alice"
       = Some c'
    /\ itemOf p c' = Some item
    /\ 1 <= quantity item <= 100.
Proof.
  apply (postAdd_success_requires "alice" (Some "mug") (Some 3) mugCatalog fourMugsStore).
  - exact fourMugsStore_consistent.
  - vm_compute. reflexivity.
Defined.

(** X24.  [PUT /update] succeeds only when the body gives a quantity
    that is not negative and not above the stock of a product that is
    in the catalog, and the user has a stored cart that holds the
    product. *)
Theorem putUpdate_success_requires (u : UserId) (p : ProductId)
    (bodyQuantity : option Z) (cat : Catalog) (db : Store) :
  success (fst (putUpdate u p bodyQuantity cat db)) = true ->
  exists q prod c item,
    bodyQuantity = Some q /\ 0 <= q
    /\ cat !! p = Some prod /\ q <= product_stock prod
    /\ db !! u = Some c /\ itemOf p c = Some item.
Proof.
  unfold putUpdate. destruct bodyQuantity as [q|]; [|done].
  destruct (Z.ltb_spec q 0); [done|].
  destruct (cat !! p) as [prod|]; [|done].
  destruct (Z.ltb_spec (product_stock prod) q); [done|].
  destruct (db !! u) as [c|]; [|done].
  unfold updateItemQuantity.
  destruct (List.find (sameProduct p) (items c)) as [item|] eqn:Hitem; [|done].
  intros _. by exists q, prod, c, item.
Qed.

Lemma putUpdate_success_requires_witness :
  exists q prod c item,
    Some 9 = Some q /\ 0 <= q
    /\ mugCatalog !! "mug" = Some prod /\ q <= product_stock prod
    /\ fourMugsStore !! "alice" = Some c /\ itemOf "mug" c = Some item.
Proof.
  apply (putUpdate_success_requires "alice" "mug" (Some 9) mugCatalog fourMugsStore).
  vm_compute. reflexivity.
Defined.

(** ** The totals after an update and after a merge *)




